(** * count_changes.py: line-change totals of a git history

    A shallow embedding of [src/count_changes.py] and the proofs of its
    specification.

    Modelling choices.
    - A Python [str] is a [string]; a character is a code point below 256
      (an [ascii]).  On that range the classes of Python's [re] for [str]
      patterns are exact: [\d] is [0-9] and [\s] is the Unicode white space
      below 256.
    - A Python [int] is a [Z] (unbounded).  The conversions between [int]
      and [str] raise [ValueError] beyond the interpreter's default limit
      of 4300 digits, in [int(...)] as in the f-strings.
    - [re.search] is a backtracking matcher over a small regex syntax that
      covers the two patterns of the script.
    - [subprocess.run] is the only interaction with the world; its outcome
      (an exception, or a completed process with its exit status and
      captured text) is the input of [main].  Standard output is the list
      of the lines written before the process ends. *)

From Stdlib Require Import ZArith List Bool Ascii String Lia.
From Stdlib Require Import Permutation.
From Stdlib Require Import Numbers.DecimalString Numbers.DecimalPos.
Import ListNotations.

Local Open Scope string_scope.
Local Open Scope Z_scope.

(** ** Characters *)

Module Chars.

(** [\d] on code points below 256: the ASCII digits. *)
Definition is_digit (c : ascii) : bool :=
  let n := nat_of_ascii c in
  (Nat.leb 48 n && Nat.leb n 57)%bool.

(** [\s] on code points below 256: TAB, LF, VT, FF, CR, the four
    separators FS GS RS US, SPACE, NEL and NO-BREAK SPACE. *)
Definition is_space (c : ascii) : bool :=
  let n := nat_of_ascii c in
  ((Nat.leb 9 n && Nat.leb n 13) || (Nat.leb 28 n && Nat.leb n 32)
   || Nat.eqb n 133 || Nat.eqb n 160)%bool.

(** The value of a decimal digit. *)
Definition digit_value (c : ascii) : Z :=
  Z.of_nat (nat_of_ascii c) - 48.

End Chars.
Export Chars.

(** ** Strings *)

Module Str.

Fixpoint all (p : ascii -> bool) (s : string) : bool :=
  match s with
  | EmptyString => true
  | String c s' => (p c && all p s')%bool
  end.

(** Python's [needle in hay] on strings. *)
Fixpoint contains (needle hay : string) : bool :=
  if String.prefix needle hay then true
  else match hay with
       | EmptyString => false
       | String _ hay' => contains needle hay'
       end.

(** Python's [s.split('\n')]: never empty, [''.split('\n') = ['']]. *)
Fixpoint split_nl (s : string) : list string :=
  match s with
  | EmptyString => [EmptyString]
  | String c s' =>
      if Ascii.eqb c "010"%char then EmptyString :: split_nl s'
      else match split_nl s' with
           | h :: t => String c h :: t
           | [] => [String c EmptyString]
           end
  end.

(** The suffix of [s] from offset [n] on, Python's [s[n:]]. *)
Fixpoint drop (n : nat) (s : string) : string :=
  match n, s with
  | O, _ => s
  | S n', String _ s' => drop n' s'
  | S _, EmptyString => EmptyString
  end.

End Str.
Export Str.

(** ** Exceptions *)

Module Py.

(** Exceptions that can end the script. *)
Inductive exn : Type :=
| FileNotFoundError      (* the executable is not on the path *)
| PermissionError        (* the file found is not executable *)
| OSError                (* any other failure to start the child *)
| UnicodeDecodeError     (* the captured bytes are not text *)
| TypeError              (* int(None) *)
| ValueError.            (* a conversion beyond the limit of digits *)

Inductive result (A : Type) : Type :=
| Ok (a : A)
| Raise (e : exn).
Arguments Ok {A} a.
Arguments Raise {A} e.

Definition bind {A B : Type} (x : result A) (f : A -> result B) : result B :=
  match x with
  | Ok a => f a
  | Raise e => Raise e
  end.

Notation "x <- c1 ;; c2" := (bind c1 (fun x => c2))
  (at level 61, c1 at next level, right associativity).

End Py.
Export Py.

(** ** Integers: [int(...)] on a digit string and [str(...)] *)

Module PyInt.

(** [sys.int_info.default_max_str_digits]: the longest decimal text the
    interpreter converts to or from an [int]. *)
Definition max_str_digits : nat := 4300.

Fixpoint int_acc (acc : Z) (s : string) : Z :=
  match s with
  | EmptyString => acc
  | String c s' => int_acc (10 * acc + digit_value c) s'
  end.

(** The number a string of decimal digits stands for. *)
Definition decimal_value (s : string) : Z := int_acc 0 s.

(** [int(s)] for a string of decimal digits, the only strings the script
    converts (see [X2_count_is_whole_number]): [ValueError] when [s] has
    more digits than the limit, leading zeros counted. *)
Definition int (s : string) : result Z :=
  if Nat.leb (String.length s) max_str_digits
  then Ok (decimal_value s)
  else Raise ValueError.

(** The decimal text of an integer, with [-] before a negative one. *)
Definition decimal_text (n : Z) : string :=
  NilZero.string_of_int (Z.to_int n).

(** [str(n)], what an f-string does with an [int]: [ValueError] when [n]
    has more digits than the limit, the sign not counted. *)
Definition str (n : Z) : result string :=
  if Nat.leb (String.length (decimal_text (Z.abs n))) max_str_digits
  then Ok (decimal_text n)
  else Raise ValueError.

End PyInt.
Export PyInt.

(** ** Regular expressions: the fragment of [re] the script uses *)

Module Regex.

Inductive regex : Type :=
| Lit (c : ascii)                 (* a literal character *)
| Plus (p : ascii -> bool)        (* a character class repeated, greedy: \d+ \s+ *)
| Opt (r : regex)                 (* r? , greedy *)
| Cat (r1 r2 : regex)             (* concatenation *)
| Group (r : regex).              (* capture group 1 *)

(** A literal word. *)
Fixpoint lits (w : string) (tail : regex) : regex :=
  match w with
  | EmptyString => tail
  | String c w' => Cat (Lit c) (lits w' tail)
  end.

(** The match object: only [group(1)] is read by the script.  [None] is a
    group that took no part in the match. *)
Record Match : Type := mkMatch { group1 : option string }.

Section Backtrack.
Context {A : Type}.

(** [p+] at [s]: take characters of the class as long as possible, and
    give them back one by one while the rest of the pattern fails. *)
Fixpoint plus_loop (p : ascii -> bool) (s : string)
         (k : string -> option A) : option A :=
  match s with
  | EmptyString => None
  | String c s' =>
      if p c then
        match plus_loop p s' k with
        | Some x => Some x
        | None => k s'
        end
      else None
  end.

(** The backtracking matcher in continuation-passing style: [bt r s g k]
    matches [r] at the start of [s] with group 1 currently [g], and hands
    the rest of the text and the new group to [k]; the first alternative
    for which [k] succeeds wins. *)
Fixpoint bt (r : regex) (s : string) (g : option string)
         (k : string -> option string -> option A) : option A :=
  match r with
  | Lit c =>
      match s with
      | String a s' => if Ascii.eqb a c then k s' g else None
      | EmptyString => None
      end
  | Plus p => plus_loop p s (fun s' => k s' g)
  | Opt r1 =>
      match bt r1 s g k with
      | Some x => Some x
      | None => k s g
      end
  | Cat r1 r2 => bt r1 s g (fun s1 g1 => bt r2 s1 g1 k)
  | Group r1 =>
      bt r1 s g (fun s' _ =>
        k s' (Some (String.substring 0 (String.length s - String.length s') s)))
  end.
End Backtrack.

(** [re.match]: a match that starts at the first character. *)
Definition match_here (r : regex) (s : string) : option Match :=
  bt r s None (fun _ g => Some (mkMatch g)).

(** [re.search]: the match at the leftmost offset that has one. *)
Fixpoint search (r : regex) (s : string) : option Match :=
  match match_here r s with
  | Some m => Some m
  | None =>
      match s with
      | EmptyString => None
      | String _ s' => search r s'
      end
  end.

(** The shape of both patterns:
    [(\d+)\s+<word>s?\(<sign>\)]. *)
Definition stat_re (word : string) (sign : ascii) : regex :=
  Cat (Group (Plus is_digit))
      (Cat (Plus is_space)
           (lits word
                 (Cat (Opt (Lit "s"))
                      (Cat (Lit "(") (Cat (Lit sign) (Lit ")")))))).

(** [r'(\d+)\s+insertions?\(\+\)'] *)
Definition re_insertions : regex :=
  Cat (Group (Plus is_digit))
      (Cat (Plus is_space)
           (lits "insertion"
                 (Cat (Opt (Lit "s"))
                      (Cat (Lit "(") (Cat (Lit "+") (Lit ")")))))).

(** [r'(\d+)\s+deletions?\(-\)'] *)
Definition re_deletions : regex :=
  Cat (Group (Plus is_digit))
      (Cat (Plus is_space)
           (lits "deletion"
                 (Cat (Opt (Lit "s"))
                      (Cat (Lit "(") (Cat (Lit "-") (Lit ")")))))).

End Regex.
Export Regex.

(** ** The script *)

Module Script.

(** What [subprocess.run(..., capture_output=True, text=True)] returns. *)
Record CompletedProcess : Type := mkCompleted {
  returncode : Z;
  stdout : string;
  stderr : string
}.

(** [subprocess.run] without [check=True]: it raises when the child cannot
    be started (or its output cannot be decoded) and returns the completed
    process otherwise, whatever its exit status. *)
Inductive run_outcome : Type :=
| Raised (e : exn)
| Returned (cp : CompletedProcess).

(** The two counters. *)
Record totals : Type := mkTotals {
  total_insertions : Z;
  total_deletions : Z
}.

(** [if match: total += int(match.group(1))] *)
Definition add_match (total : Z) (m : option Match) : result Z :=
  match m with
  | None => Ok total
  | Some m =>
      match group1 m with
      | Some ds => n <- int ds ;; Ok (total + n)
      | None => Raise TypeError
      end
  end.

(** Lines 13-17: the insertions block of the loop body. *)
Definition insertions_block (total : Z) (line : string) : result Z :=
  if (contains "insertions" line || contains "insertion" line)%bool
  then add_match total (search re_insertions line)
  else Ok total.

(** Lines 19-23: the deletions block of the loop body. *)
Definition deletions_block (total : Z) (line : string) : result Z :=
  if (contains "deletions" line || contains "deletion" line)%bool
  then add_match total (search re_deletions line)
  else Ok total.

(** One iteration of [for line in lines]. *)
Definition loop_body (t : totals) (line : string) : result totals :=
  ti <- insertions_block (total_insertions t) line ;;
  td <- deletions_block (total_deletions t) line ;;
  Ok (mkTotals ti td).

Fixpoint loop (lines : list string) (t : totals) : result totals :=
  match lines with
  | [] => Ok t
  | line :: rest => t' <- loop_body t line ;; loop rest t'
  end.

(** Lines 9-23: both counters start at zero and the loop runs. *)
Definition aggregate (lines : list string) : result totals :=
  loop lines (mkTotals 0 0).

Definition net_change (t : totals) : Z :=
  total_insertions t - total_deletions t.

(** How the process ends: the lines written to standard output, the exit
    status, and the exception that ended it, if any. *)
Record process_end : Type := mkEnd {
  printed : list string;
  exit_status : Z;
  uncaught : option exn
}.

(** An exception nobody catches, after the lines [out] were written: a
    traceback on standard error, exit status 1. *)
Definition die (out : list string) (e : exn) : process_end :=
  mkEnd out 1 (Some e).

(** Lines 25-27: the three [print] calls.  Each formats its number first
    and writes its line then; a [print] that raises leaves the lines
    written before it. *)
Definition prints (t : totals) : process_end :=
  match str (total_insertions t) with
  | Raise e => die [] e
  | Ok s1 =>
      let line1 := ("Total insertions: " ++ s1)%string in
      match str (total_deletions t) with
      | Raise e => die [line1] e
      | Ok s2 =>
          let line2 := ("Total deletions: " ++ s2)%string in
          match str (total_insertions t - total_deletions t) with
          | Raise e => die [line1; line2] e
          | Ok s3 =>
              mkEnd [line1; line2; ("Net change: " ++ s3)%string] 0 None
          end
      end
  end.

(** The whole script, as a function of what [subprocess.run] does. *)
Definition main (o : run_outcome) : process_end :=
  match o with
  | Raised e => die [] e
  | Returned cp =>
      match aggregate (split_nl (stdout cp)) with
      | Ok t => prints t
      | Raise e => die [] e
      end
  end.

(** The ways the invocation of git can fail that the specification names,
    and what [subprocess.run] does in each. Outside a repository git itself
    starts, writes its complaint to standard error and exits with status
    128. *)
Inductive invocation_failure : Type :=
| ToolMissing
| ToolNotExecutable
| NotARepository.

Definition run_failing (f : invocation_failure) : run_outcome :=
  match f with
  | ToolMissing => Raised FileNotFoundError
  | ToolNotExecutable => Raised PermissionError
  | NotARepository =>
      Returned (mkCompleted 128 ""
        "fatal: not a git repository (or any of the parent directories): .git")
  end.

(** A run that ends by a fatal error: non-zero status, no summary. *)
Definition fatal (e : process_end) : Prop :=
  exit_status e <> 0 /\ printed e = [].

(** *** The script without the substring tests

    The variant the specification's design notes describe: the same loop
    with the two [in] tests left out. *)
Definition insertions_block_nocheck (total : Z) (line : string) : result Z :=
  add_match total (search re_insertions line).

Definition deletions_block_nocheck (total : Z) (line : string) : result Z :=
  add_match total (search re_deletions line).

Definition loop_body_nocheck (t : totals) (line : string) : result totals :=
  ti <- insertions_block_nocheck (total_insertions t) line ;;
  td <- deletions_block_nocheck (total_deletions t) line ;;
  Ok (mkTotals ti td).

Fixpoint loop_nocheck (lines : list string) (t : totals) : result totals :=
  match lines with
  | [] => Ok t
  | line :: rest => t' <- loop_body_nocheck t line ;; loop_nocheck rest t'
  end.

Definition main_nocheck (o : run_outcome) : process_end :=
  match o with
  | Raised e => die [] e
  | Returned cp =>
      match loop_nocheck (split_nl (stdout cp)) (mkTotals 0 0) with
      | Ok t => prints t
      | Raise e => die [] e
      end
  end.

End Script.
Export Script.

(** ** What the specification talks about *)

Module Shape.

Definition nonempty (s : string) : bool :=
  match s with
  | EmptyString => false
  | String _ _ => true
  end.

(** The first character of [s] is in the class [p]. *)
Definition head_in (p : ascii -> bool) (s : string) : bool :=
  match s with
  | EmptyString => false
  | String c _ => p c
  end.

(** [<N>]: one decimal digit or more. *)
Definition digits (ds : string) : bool := (nonempty ds && all is_digit ds)%bool.

(** One white-space character or more. *)
Definition blanks (ws : string) : bool := (nonempty ws && all is_space ws)%bool.

(** The optional plural [s]. *)
Definition plural (sfx : string) : bool :=
  (String.eqb sfx "" || String.eqb sfx "s")%bool.

(** The text of one statistic: [<N> <word>[s](<sign>)] and what follows. *)
Definition stat_text (word : string) (sign : ascii)
           (ds ws sfx post : string) : string :=
  (ds ++ ws ++ word ++ sfx ++ String "(" (String sign (String ")" post)))%string.

(** A line has the shape of the pattern: somewhere in it stands a
    statistic for [word] and [sign]. *)
Definition has_stat (word : string) (sign : ascii) (line : string) : Prop :=
  exists pre ds ws sfx post,
    line = (pre ++ stat_text word sign ds ws sfx post)%string /\
    digits ds = true /\ blanks ws = true /\ plural sfx = true.

(** The digits of [ds] are within what [int] converts. *)
Definition readable (ds : string) : bool :=
  Nat.leb (String.length ds) max_str_digits.

(** The number of a match, the number [int] returns when it returns. *)
Definition count_of (m : option Match) : Z :=
  match m with
  | Some (mkMatch (Some ds)) => decimal_value ds
  | _ => 0
  end.

(** The number of the match, if any, is within what [int] converts. *)
Definition count_ok (m : option Match) : bool :=
  match m with
  | Some (mkMatch (Some ds)) => readable ds
  | _ => true
  end.

(** What one line adds to each counter. *)
Definition insertions_of (line : string) : Z :=
  count_of (search re_insertions line).

Definition deletions_of (line : string) : Z :=
  count_of (search re_deletions line).

Definition line_totals (line : string) : totals :=
  mkTotals (insertions_of line) (deletions_of line).

(** Both numbers of the line, where it has them, are within the limit. *)
Definition line_ok (line : string) : bool :=
  (count_ok (search re_insertions line)
   && count_ok (search re_deletions line))%bool.

Definition report_ok (lines : list string) : bool := forallb line_ok lines.

(** Component-wise sum of pairs of totals. *)
Definition add_totals (a b : totals) : totals :=
  mkTotals (total_insertions a + total_insertions b)
           (total_deletions a + total_deletions b).

Definition sum_totals (ts : list totals) : totals :=
  fold_right add_totals (mkTotals 0 0) ts.

(** Both counters are non-negative. *)
Definition nonneg (t : totals) : Prop :=
  0 <= total_insertions t /\ 0 <= total_deletions t.

(** No counter of [a] is above its value in [b]. *)
Definition le_totals (a b : totals) : Prop :=
  total_insertions a <= total_insertions b /\
  total_deletions a <= total_deletions b.

(** A list of successive values that never go down. *)
Fixpoint nondecreasing (ts : list totals) : Prop :=
  match ts with
  | a :: (b :: _) as rest => le_totals a b /\ nondecreasing rest
  | _ => True
  end.

(** Every value the pair of counters takes while the loop runs from [t],
    in order: the value at the start, then for each line the value after
    its insertions block and the value after its deletions block, up to
    the end of the report or to the block that raises. *)
Fixpoint steps (lines : list string) (t : totals) : list totals :=
  match lines with
  | [] => []
  | line :: rest =>
      match insertions_block (total_insertions t) line with
      | Raise _ => []
      | Ok ti =>
          mkTotals ti (total_deletions t) ::
          match deletions_block (total_deletions t) line with
          | Raise _ => []
          | Ok td => mkTotals ti td :: steps rest (mkTotals ti td)
          end
      end
  end.

Definition trace (lines : list string) (t : totals) : list totals :=
  t :: steps lines t.

(** The three lines of a summary written in full (lines 25-27). *)
Definition report (t : totals) : list string :=
  [ "Total insertions: " ++ decimal_text (total_insertions t);
    "Total deletions: " ++ decimal_text (total_deletions t);
    "Net change: " ++ decimal_text (net_change t) ]%string.

(** The text whose lines are [lines]: Python's ['\n'.join(lines)], what
    git writes for a report of these lines. *)
Definition join_nl (lines : list string) : string :=
  String.concat (String "010"%char EmptyString) lines.

(** A run in which git ends with status [rc] after writing [out]. *)
Definition git_wrote (rc : Z) (out : string) : run_outcome :=
  Returned (mkCompleted rc out "").

(** The specification's "invocation failure, hence fatal error" read over
    the three failures it names. *)
Definition every_failure_is_fatal : Prop :=
  forall f : invocation_failure, fatal (main (run_failing f)).

(** The [kind] of the specification's [extractCount(line, kind)]. *)
Inductive kind : Type := INSERTIONS | DELETIONS.

Definition pattern (k : kind) : regex :=
  match k with
  | INSERTIONS => re_insertions
  | DELETIONS => re_deletions
  end.

(** The substring test that guards each block. *)
Definition precheck (k : kind) (line : string) : bool :=
  match k with
  | INSERTIONS => (contains "insertions" line || contains "insertion" line)%bool
  | DELETIONS => (contains "deletions" line || contains "deletion" line)%bool
  end.

(** [int(match.group(1))] for a match. *)
Definition match_value (m : Match) : result Z :=
  match group1 m with
  | Some ds => int ds
  | None => Raise TypeError
  end.

(** The precise pattern alone: the number of the leftmost match, nothing
    without a match. *)
Definition pattern_value (k : kind) (line : string) : result (option Z) :=
  match search (pattern k) line with
  | Some m => n <- match_value m ;; Ok (Some n)
  | None => Ok None
  end.

(** The specification's [extractCount]: the substring test first, the
    pattern only when it passes. *)
Definition extractCount (line : string) (k : kind) : result (option Z) :=
  if precheck k line then pattern_value k line else Ok None.

Definition or_zero (n : option Z) : Z :=
  match n with
  | Some z => z
  | None => 0
  end.

(** The last character of [s] is in the class [p]. *)
Fixpoint ends_in (p : ascii -> bool) (s : string) : bool :=
  match s with
  | EmptyString => false
  | String c EmptyString => p c
  | String _ s' => ends_in p s'
  end.

(** No character of [s] is in the class [p]. *)
Definition none_in (p : ascii -> bool) (s : string) : bool :=
  all (fun c => negb (p c)) s.

Definition is_newline (c : ascii) : bool := Ascii.eqb c "010"%char.

(** The number of line feeds of a text. *)
Fixpoint count_newlines (s : string) : nat :=
  match s with
  | EmptyString => O
  | String c s' =>
      if is_newline c then S (count_newlines s') else count_newlines s'
  end.

(** [n] times the character [c]. *)
Fixpoint repeat_char (c : ascii) (n : nat) : string :=
  match n with
  | O => EmptyString
  | S k => String c (repeat_char c k)
  end.

(** The number the insertions pattern or the deletions pattern finds in
    the line has more digits than [int] converts. *)
Definition long_number (line : string) : Prop :=
  exists ds,
    (search re_insertions line = Some (mkMatch (Some ds)) \/
     search re_deletions line = Some (mkMatch (Some ds))) /\
    (max_str_digits < String.length ds)%nat.

End Shape.
Export Shape.

(** * Properties *)

(** ** Strings and characters *)

Section StringFacts.

Lemma append_assoc (a b c : string) : ((a ++ b) ++ c = a ++ (b ++ c))%string.
Proof. induction a as [|x a IH]; simpl; [reflexivity | now rewrite IH]. Qed.

Lemma length_append (a b : string) :
  String.length (a ++ b) = (String.length a + String.length b)%nat.
Proof. induction a as [|x a IH]; simpl; [reflexivity | now rewrite IH]. Qed.

Lemma substring_prefix (a b : string) :
  String.substring 0 (String.length a) (a ++ b) = a.
Proof.
  induction a as [|x a IH]; simpl.
  - destruct b; reflexivity.
  - now rewrite IH.
Qed.

Lemma prefix_append (a b : string) : String.prefix a (a ++ b) = true.
Proof.
  induction a as [|x a IH]; simpl; [now destruct b|].
  destruct (ascii_dec x x) as [_|n]; [exact IH | now destruct n].
Qed.

Lemma prefix_split (a : string) :
  forall h, String.prefix a h = true -> exists post, h = (a ++ post)%string.
Proof.
  induction a as [|x a IH]; intros h H.
  - now exists h.
  - destruct h as [|c h]; [discriminate|]. simpl in H.
    destruct (ascii_dec x c) as [->|]; [|discriminate].
    destruct (IH h H) as [post ->]. now exists post.
Qed.

Lemma contains_eq (needle hay : string) :
  contains needle hay =
  if String.prefix needle hay then true
  else match hay with
       | EmptyString => false
       | String _ hay' => contains needle hay'
       end.
Proof. destruct hay; reflexivity. Qed.

Lemma contains_append (needle pre post : string) :
  contains needle (pre ++ needle ++ post) = true.
Proof.
  induction pre as [|x pre IH].
  - simpl append. rewrite contains_eq, prefix_append. reflexivity.
  - simpl append. rewrite contains_eq.
    destruct (String.prefix needle _); [reflexivity | exact IH].
Qed.

(** [contains] is containment: with [contains_append], [needle in hay]
    holds exactly when [hay] is some text, [needle], some text. *)
Lemma contains_split (needle hay : string) :
  contains needle hay = true ->
  exists pre post, hay = (pre ++ needle ++ post)%string.
Proof.
  induction hay as [|x hay IH]; rewrite contains_eq.
  - destruct (String.prefix needle "") eqn:E; [|discriminate].
    intros _. destruct (prefix_split _ _ E) as [post ->]. now exists "", post.
  - destruct (String.prefix needle (String x hay)) eqn:E.
    + intros _. destruct (prefix_split _ _ E) as [post ->]. now exists "", post.
    + intros H. destruct (IH H) as (pre & post & ->).
      now exists (String x pre), post.
Qed.

Lemma digit_not_space (c : ascii) : is_digit c = true -> is_space c = false.
Proof.
  destruct c as [[] [] [] [] [] [] [] []]; vm_compute; congruence.
Qed.

Lemma digit_value_bounds (c : ascii) :
  is_digit c = true -> 0 <= digit_value c <= 9.
Proof.
  destruct c as [[] [] [] [] [] [] [] []]; vm_compute;
    intuition congruence.
Qed.

Lemma int_acc_nonneg (s : string) :
  forall acc, all is_digit s = true -> 0 <= acc -> 0 <= int_acc acc s.
Proof.
  induction s as [|c s IH]; cbn [int_acc all]; intros acc H Hacc;
    [exact Hacc|].
  apply andb_true_iff in H as [Hc Hs].
  apply IH; [exact Hs|].
  pose proof (digit_value_bounds c Hc). lia.
Qed.

Lemma decimal_value_nonneg (s : string) :
  all is_digit s = true -> 0 <= decimal_value s.
Proof. intros H. apply int_acc_nonneg; [exact H | lia]. Qed.

End StringFacts.


(** ** The matcher *)

Module RegexFacts.

Section PlusLoop.
Context {A : Type}.
Variable p : ascii -> bool.

Lemma plus_loop_head (s : string) (k : string -> option A) :
  head_in p s = false -> plus_loop p s k = None.
Proof.
  destruct s as [|c s]; simpl; [reflexivity|]. now intros ->.
Qed.

Lemma plus_loop_sound (s : string) (k : string -> option A) (x : A) :
  plus_loop p s k = Some x ->
  exists run rest,
    s = (run ++ rest)%string /\ nonempty run = true /\
    all p run = true /\ k rest = Some x.
Proof.
  induction s as [|c s IH]; simpl; [discriminate|].
  destruct (p c) eqn:Hc; [|discriminate].
  destruct (plus_loop p s k) as [y|] eqn:E.
  - intros [= ->]. destruct (IH eq_refl) as (run & rest & -> & _ & Hr & Hk).
    exists (String c run), rest. simpl. rewrite Hc, Hr. auto.
  - intros Hk. exists (String c ""), s. simpl. rewrite Hc. auto.
Qed.

(** When the rest of the pattern cannot start with a character of the
    class, [p+] keeps the whole run: no shorter repetition is tried with
    success. *)
Lemma plus_loop_run (run rest : string) (k : string -> option A) :
  nonempty run = true -> all p run = true -> head_in p rest = false ->
  (forall c s', p c = true -> k (String c s') = None) ->
  plus_loop p (run ++ rest) k = k rest.
Proof.
  intros Hne Hall Hrest Hk. induction run as [|c run IH]; [discriminate|].
  simpl in Hall. apply andb_true_iff in Hall as [Hc Hall].
  simpl. rewrite Hc. destruct run as [|d run].
  - simpl. now rewrite (plus_loop_head rest k Hrest).
  - rewrite (IH eq_refl Hall).
    destruct (k rest) eqn:E; [reflexivity|].
    simpl in Hall. apply andb_true_iff in Hall as [Hd _].
    simpl. now apply Hk.
Qed.
End PlusLoop.

Section Stat.
Context {A : Type}.
Variable sign : ascii.

(** The end of both patterns: [s?\(<sign>\)]. *)
Let tail : regex :=
  Cat (Opt (Lit "s")) (Cat (Lit "(") (Cat (Lit sign) (Lit ")"))).

Lemma bt_lits (v : string) (r : regex) (s : string) (g : option string)
      (k : string -> option string -> option A) :
  bt (lits v r) (v ++ s) g k = bt r s g k.
Proof.
  induction v as [|c v IH]; simpl; [reflexivity|].
  now rewrite Ascii.eqb_refl.
Qed.

Lemma bt_lits_sound (v : string) (r : regex) (s : string)
      (g : option string) (k : string -> option string -> option A) (x : A) :
  bt (lits v r) s g k = Some x ->
  exists s', s = (v ++ s')%string /\ bt r s' g k = Some x.
Proof.
  revert s. induction v as [|c v IH]; simpl; intros s H.
  - now exists s.
  - destruct s as [|a s]; [discriminate|].
    destruct (Ascii.eqb a c) eqn:E; [|discriminate].
    apply Ascii.eqb_eq in E as ->.
    destruct (IH s H) as (s' & -> & H'). now exists s'.
Qed.

Lemma bt_tail (sfx post : string) (g : option string)
      (k : string -> option string -> option A) :
  plural sfx = true ->
  bt tail (sfx ++ String "(" (String sign (String ")" post))) g k = k post g.
Proof.
  unfold plural. intros H. apply orb_true_iff in H.
  destruct H as [H|H]; apply String.eqb_eq in H; subst sfx; simpl;
    rewrite !Ascii.eqb_refl; [reflexivity|].
  now destruct (k post g).
Qed.

Lemma bt_tail_sound (s : string) (g : option string)
      (k : string -> option string -> option A) (x : A) :
  bt tail s g k = Some x ->
  exists sfx post,
    s = (sfx ++ String "(" (String sign (String ")" post)))%string /\
    plural sfx = true /\ k post g = Some x.
Proof.
  assert (forall s, bt (Cat (Lit "(") (Cat (Lit sign) (Lit ")"))) s g k
                    = Some x ->
            exists post, s = String "(" (String sign (String ")" post)) /\
                         k post g = Some x) as Hparen.
  { clear s. intros s H. simpl in H.
    destruct s as [|a [|b [|c post]]]; try discriminate;
      try (destruct (Ascii.eqb a "("); discriminate);
      destruct (Ascii.eqb a "(") eqn:Ea; try discriminate;
      try (destruct (Ascii.eqb b sign); discriminate);
      destruct (Ascii.eqb b sign) eqn:Eb; try discriminate.
    destruct (Ascii.eqb c ")") eqn:Ec; try discriminate.
    apply Ascii.eqb_eq in Ea, Eb, Ec. subst. now exists post. }
  intros H.
  change (match bt (Lit "s") s g
                   (fun s1 g1 =>
                      bt (Cat (Lit "(") (Cat (Lit sign) (Lit ")"))) s1 g1 k)
          with
          | Some y => Some y
          | None => bt (Cat (Lit "(") (Cat (Lit sign) (Lit ")"))) s g k
          end = Some x) in H.
  destruct (bt (Lit "s") s g _) as [y|] eqn:E.
  - injection H as ->. cbn [bt] in E.
    destruct s as [|a s']; [discriminate|].
    destruct (Ascii.eqb a "s") eqn:Ea; [|discriminate].
    apply Ascii.eqb_eq in Ea as ->.
    apply Hparen in E as (post & -> & Hk). now exists "s", post.
  - apply Hparen in H as (post & -> & Hk). now exists "", post.
Qed.

End Stat.

Lemma space_not_digit (c : ascii) : is_space c = true -> is_digit c = false.
Proof.
  intros H. destruct (is_digit c) eqn:E; [|reflexivity].
  apply digit_not_space in E. congruence.
Qed.

Lemma blanks_head (ws rest : string) :
  blanks ws = true -> head_in is_digit (ws ++ rest) = false.
Proof.
  destruct ws as [|c ws]; [discriminate|]. unfold blanks. simpl.
  intros H. apply andb_true_iff in H as [H _]. now apply space_not_digit.
Qed.

Section StatMatch.
Variables (w0 : ascii) (w : string) (sign : ascii).
Hypothesis w0_not_space : is_space w0 = false.

Let word : string := String w0 w.

(** At the start of a statistic the pattern matches, and group 1 is the
    whole number. *)
Lemma match_here_stat (ds ws sfx post : string) :
  digits ds = true -> blanks ws = true -> plural sfx = true ->
  match_here (stat_re word sign) (stat_text word sign ds ws sfx post)
  = Some (mkMatch (Some ds)).
Proof.
  intros Hd Hw Hp. unfold match_here, stat_re, stat_text.
  cbn [bt]. pose proof Hd as Hd'. pose proof Hw as Hw'.
  apply andb_true_iff in Hd' as [Hd1 Hd2].
  apply andb_true_iff in Hw' as [Hw1 Hw2].
  rewrite plus_loop_run; trivial.
  - rewrite length_append, Nat.add_sub, substring_prefix.
    rewrite plus_loop_run; trivial.
    + rewrite (bt_lits word). now rewrite bt_tail.
    + intros c s' Hc. subst word. cbn [lits bt].
      destruct (Ascii.eqb c w0) eqn:E; [|reflexivity].
      apply Ascii.eqb_eq in E. congruence.
  - now apply blanks_head.
  - intros c s' Hc. apply plus_loop_head. simpl.
    now apply digit_not_space.
Qed.

(** Whatever the pattern matches is a statistic, and group 1 is its
    number. *)
Lemma match_here_stat_sound (s : string) (m : Match) :
  match_here (stat_re word sign) s = Some m ->
  exists ds ws sfx post,
    s = stat_text word sign ds ws sfx post /\
    digits ds = true /\ blanks ws = true /\ plural sfx = true /\
    m = mkMatch (Some ds).
Proof.
  unfold match_here, stat_re. cbn [bt]. intros H.
  apply plus_loop_sound in H as (ds & r1 & -> & Hd1 & Hd2 & H).
  rewrite length_append, Nat.add_sub, substring_prefix in H.
  apply plus_loop_sound in H as (ws & r2 & -> & Hw1 & Hw2 & H).
  apply bt_lits_sound in H as (r3 & -> & H).
  apply bt_tail_sound in H as (sfx & post & -> & Hp & H).
  injection H as <-. exists ds, ws, sfx, post. unfold digits, blanks.
  rewrite Hd1, Hd2, Hw1, Hw2. auto.
Qed.
End StatMatch.

Section Search.
Variable r : regex.

Lemma search_eq (s : string) :
  search r s =
  match match_here r s with
  | Some m => Some m
  | None => match s with
            | EmptyString => None
            | String _ s' => search r s'
            end
  end.
Proof. destruct s; reflexivity. Qed.

(** [search] returns the match at the first offset that has one. *)
Lemma search_sound (s : string) (m : Match) :
  search r s = Some m ->
  exists pre rest,
    s = (pre ++ rest)%string /\ match_here r rest = Some m /\
    forall n, (n < String.length pre)%nat ->
              match_here r (drop n s) = None.
Proof.
  induction s as [|c s IH]; rewrite search_eq;
    destruct (match_here r _) as [m'|] eqn:E.
  - intros [= ->]. exists "", "". repeat split; trivial.
    simpl. intros n Hn. lia.
  - discriminate.
  - intros [= ->]. exists "", (String c s). repeat split; trivial.
    simpl. intros n Hn. lia.
  - intros H. destruct (IH H) as (pre & rest & -> & Hm & Hno).
    exists (String c pre), rest. repeat split; trivial.
    intros [|n] Hn; [exact E|]. simpl in Hn. simpl. apply Hno. lia.
Qed.

Lemma search_leftmost (pre rest : string) (m : Match) :
  match_here r rest = Some m ->
  (forall n, (n < String.length pre)%nat ->
             match_here r (drop n (pre ++ rest)) = None) ->
  search r (pre ++ rest) = Some m.
Proof.
  intros Hm. induction pre as [|c pre IH]; intros Hno.
  - simpl. rewrite search_eq, Hm. reflexivity.
  - rewrite search_eq. pose proof (Hno 0%nat) as H0. simpl in H0.
    simpl append. rewrite H0 by lia. apply IH. intros n Hn. apply (Hno (S n)). simpl. lia.
Qed.

Lemma search_complete (pre rest : string) (m : Match) :
  match_here r rest = Some m ->
  exists m', search r (pre ++ rest) = Some m'.
Proof.
  intros Hm. induction pre as [|c pre IH].
  - exists m. simpl. rewrite search_eq, Hm. reflexivity.
  - rewrite search_eq. simpl append.
    destruct (match_here r (String c (pre ++ rest))) as [m'|];
      [now exists m' | exact IH].
Qed.
End Search.

Section StatSearch.
Variables (w0 : ascii) (w : string) (sign : ascii).
Hypothesis w0_not_space : is_space w0 = false.

Let word : string := String w0 w.

(** The pattern is found exactly in the lines that hold a statistic. *)
Lemma search_stat_iff (line : string) :
  (exists m, search (stat_re word sign) line = Some m) <->
  has_stat word sign line.
Proof.
  split.
  - intros [m H]. apply search_sound in H as (pre & rest & -> & H & _).
    apply (match_here_stat_sound w0 w sign) in H
      as (ds & ws & sfx & post & -> & Hd & Hw & Hp & _).
    now exists pre, ds, ws, sfx, post.
  - intros (pre & ds & ws & sfx & post & -> & Hd & Hw & Hp).
    eapply search_complete.
    now apply (match_here_stat w0 w sign w0_not_space).
Qed.

(** Group 1 of a match is always present and is a number: [int] is only
    applied to digit strings. *)
Lemma search_stat_group (line : string) (m : Match) :
  search (stat_re word sign) line = Some m ->
  exists ds, m = mkMatch (Some ds) /\ digits ds = true.
Proof.
  intros H. apply search_sound in H as (pre & rest & -> & H & _).
  apply (match_here_stat_sound w0 w sign) in H
    as (ds & ws & sfx & post & -> & Hd & Hw & Hp & ->).
  now exists ds.
Qed.

(** A line in which the pattern is found contains the word. *)
Lemma search_stat_contains (line : string) (m : Match) :
  search (stat_re word sign) line = Some m ->
  contains word line = true.
Proof.
  intros H. apply search_sound in H as (pre & rest & -> & H & _).
  apply (match_here_stat_sound w0 w sign) in H
    as (ds & ws & sfx & post & -> & _).
  unfold stat_text.
  rewrite <- (append_assoc ds), <- (append_assoc pre).
  apply contains_append.
Qed.
End StatSearch.

End RegexFacts.
Export RegexFacts.



(** ** The loop *)

Module ScriptFacts.

Lemma re_insertions_stat : re_insertions = stat_re "insertion" "+".
Proof. reflexivity. Qed.

Lemma re_deletions_stat : re_deletions = stat_re "deletion" "-".
Proof. reflexivity. Qed.

Section Block.
Variables (w0 : ascii) (w : string) (sign : ascii).
Hypothesis w0_not_space : is_space w0 = false.

Let word : string := String w0 w.
Let re : regex := stat_re word sign.

(** [total += int(match.group(1))] adds the number of the match, and
    raises [ValueError], and nothing else, when that number is longer than
    [int] converts. *)
Lemma add_match_eq (total : Z) (line : string) :
  add_match total (search re line)
  = if count_ok (search re line)
    then Ok (total + count_of (search re line))
    else Raise ValueError.
Proof.
  unfold re, word in *. destruct (search _ line) as [m|] eqn:E.
  - destruct (search_stat_group w0 w sign line m E) as (ds & -> & _).
    cbn [add_match group1 count_ok count_of]. unfold int, readable.
    now destruct (Nat.leb _ _).
  - cbn [add_match count_ok count_of]. now rewrite Z.add_0_r.
Qed.

(** With or without the test on the word, a block does the same. *)
Lemma block_eq (longer : string) (total : Z) (line : string) :
  (if (contains longer line || contains word line)%bool
   then add_match total (search re line)
   else Ok total)
  = add_match total (search re line).
Proof.
  unfold re, word in *. destruct (search _ line) as [m|] eqn:E.
  - now rewrite (search_stat_contains w0 w sign line m E), orb_true_r.
  - now destruct (_ || _)%bool.
Qed.

Lemma count_of_nonneg (line : string) : 0 <= count_of (search re line).
Proof.
  unfold re, word in *. destruct (search _ line) as [m|] eqn:E; simpl; [|lia].
  destruct (search_stat_group w0 w sign line m E) as (ds & -> & Hd).
  apply andb_true_iff in Hd as [_ Hd]. now apply decimal_value_nonneg.
Qed.

(** The match at the first statistic of the line is the one [search]
    returns, whatever follows it. *)
Lemma search_first_stat (pre ds ws sfx post : string) :
  digits ds = true -> blanks ws = true -> plural sfx = true ->
  (forall n, (n < String.length pre)%nat ->
     match_here re (drop n (pre ++ stat_text word sign ds ws sfx post)) = None) ->
  search re (pre ++ stat_text word sign ds ws sfx post)
  = Some (mkMatch (Some ds)).
Proof.
  unfold re, word in *. intros Hd Hw Hp Hno.
  apply search_leftmost; trivial.
  now apply (match_here_stat w0 w sign w0_not_space).
Qed.

(** Without a statistic in the line the pattern is not found. *)
Lemma search_no_stat (line : string) :
  ~ has_stat word sign line -> search re line = None.
Proof.
  unfold re, word in *.
  intros H. destruct (search _ line) as [m|] eqn:E; [|reflexivity].
  destruct H. apply (search_stat_iff w0 w sign w0_not_space). now exists m.
Qed.
End Block.

Lemma insertions_block_nocheck_eq (total : Z) (line : string) :
  insertions_block total line = insertions_block_nocheck total line.
Proof. apply (block_eq "i" "nsertion" "+" "insertions"). Qed.

Lemma deletions_block_nocheck_eq (total : Z) (line : string) :
  deletions_block total line = deletions_block_nocheck total line.
Proof. apply (block_eq "d" "eletion" "-" "deletions"). Qed.

Lemma insertions_block_eq (total : Z) (line : string) :
  insertions_block total line
  = if count_ok (search re_insertions line)
    then Ok (total + insertions_of line)
    else Raise ValueError.
Proof.
  rewrite insertions_block_nocheck_eq.
  apply (add_match_eq "i" "nsertion" "+").
Qed.

Lemma deletions_block_eq (total : Z) (line : string) :
  deletions_block total line
  = if count_ok (search re_deletions line)
    then Ok (total + deletions_of line)
    else Raise ValueError.
Proof.
  rewrite deletions_block_nocheck_eq.
  apply (add_match_eq "d" "eletion" "-").
Qed.

Lemma insertions_of_nonneg (line : string) : 0 <= insertions_of line.
Proof. apply (count_of_nonneg "i" "nsertion" "+"). Qed.

Lemma deletions_of_nonneg (line : string) : 0 <= deletions_of line.
Proof. apply (count_of_nonneg "d" "eletion" "-"). Qed.

(** One iteration adds to each counter what the line is worth, unless a
    number of the line is too long for [int]: then it raises
    [ValueError]. *)
Lemma loop_body_eq (t : totals) (line : string) :
  loop_body t line
  = if line_ok line
    then Ok (mkTotals (total_insertions t + insertions_of line)
                      (total_deletions t + deletions_of line))
    else Raise ValueError.
Proof.
  unfold loop_body, line_ok.
  rewrite insertions_block_eq, deletions_block_eq.
  destruct (count_ok (search re_insertions line)); [|reflexivity].
  now destruct (count_ok (search re_deletions line)).
Qed.

Lemma add_totals_assoc (a b c : totals) :
  add_totals (add_totals a b) c = add_totals a (add_totals b c).
Proof. unfold add_totals; simpl; f_equal; lia. Qed.

Lemma add_totals_comm (a b : totals) : add_totals a b = add_totals b a.
Proof. unfold add_totals; f_equal; lia. Qed.

Lemma add_totals_zero_l (a : totals) : add_totals (mkTotals 0 0) a = a.
Proof. destruct a; reflexivity. Qed.

Lemma add_totals_zero_r (a : totals) : add_totals a (mkTotals 0 0) = a.
Proof. destruct a; unfold add_totals; simpl; f_equal; lia. Qed.

Lemma sum_totals_app (xs ys : list totals) :
  sum_totals (xs ++ ys) = add_totals (sum_totals xs) (sum_totals ys).
Proof.
  induction xs as [|x xs IH]; simpl.
  - now rewrite add_totals_zero_l.
  - now rewrite IH, add_totals_assoc.
Qed.

Lemma report_ok_app (xs ys : list string) :
  report_ok (xs ++ ys) = (report_ok xs && report_ok ys)%bool.
Proof. apply forallb_app. Qed.

(** The loop returns the sum of what the lines are worth, unless a number
    of some line is too long for [int]: then it raises [ValueError]. *)
Lemma loop_eq (lines : list string) :
  forall t, loop lines t
            = if report_ok lines
              then Ok (add_totals t (sum_totals (map line_totals lines)))
              else Raise ValueError.
Proof.
  induction lines as [|line rest IH]; intros t; cbn [loop report_ok forallb].
  - cbn [map sum_totals fold_right]. now rewrite add_totals_zero_r.
  - rewrite loop_body_eq. destruct (line_ok line); [|reflexivity].
    cbn [bind andb]. rewrite IH. fold (report_ok rest).
    destruct (report_ok rest); [|reflexivity].
    cbn [map sum_totals fold_right]. fold (sum_totals (map line_totals rest)).
    now rewrite <- add_totals_assoc.
Qed.

Lemma aggregate_eq (lines : list string) :
  aggregate lines
  = if report_ok lines
    then Ok (sum_totals (map line_totals lines))
    else Raise ValueError.
Proof. unfold aggregate. now rewrite loop_eq, add_totals_zero_l. Qed.

Lemma aggregate_single (line : string) :
  aggregate [line] = if line_ok line then Ok (line_totals line)
                     else Raise ValueError.
Proof.
  rewrite aggregate_eq. cbn [report_ok forallb map sum_totals fold_right].
  now rewrite andb_true_r, add_totals_zero_r.
Qed.

(** The order of the summands, and so of the lines, does not matter. *)
Lemma sum_totals_perm (xs ys : list totals) :
  Permutation xs ys -> sum_totals xs = sum_totals ys.
Proof.
  induction 1 as [|x xs ys _ IH|x y xs|xs ys zs _ IH1 _ IH2]; simpl.
  - reflexivity.
  - now rewrite IH.
  - rewrite <- !add_totals_assoc. now rewrite (add_totals_comm y x).
  - now rewrite IH1.
Qed.

Lemma report_ok_perm (xs ys : list string) :
  Permutation xs ys -> report_ok xs = report_ok ys.
Proof.
  unfold report_ok.
  induction 1 as [|x xs ys _ IH|x y xs|xs ys zs _ IH1 _ IH2]; simpl.
  - reflexivity.
  - now rewrite IH.
  - now rewrite !andb_assoc, (andb_comm (line_ok y)).
  - now rewrite IH1.
Qed.

Lemma aggregate_perm (xs ys : list string) :
  Permutation xs ys -> aggregate xs = aggregate ys.
Proof.
  intros H. rewrite !aggregate_eq, (report_ok_perm _ _ H).
  destruct (report_ok ys); [|reflexivity].
  f_equal. apply sum_totals_perm. now apply Permutation_map.
Qed.

Lemma loop_nocheck_eq (lines : list string) :
  forall t, loop_nocheck lines t = loop lines t.
Proof.
  induction lines as [|line rest IH]; intros t; simpl; [reflexivity|].
  unfold loop_body_nocheck, loop_body.
  rewrite <- insertions_block_nocheck_eq, <- deletions_block_nocheck_eq.
  destruct (insertions_block _ line) as [ti|e]; [|reflexivity].
  simpl. destruct (deletions_block _ line) as [td|e]; [|reflexivity].
  simpl. apply IH.
Qed.

Lemma last_cons (x : totals) (l : list totals) (d : totals) :
  last (x :: l) d = last l x.
Proof.
  revert x d. induction l as [|y l IH]; intros x d; [reflexivity|].
  change (last (x :: y :: l) d) with (last (y :: l) d).
  now rewrite !IH.
Qed.

(** The values the counters take while the loop runs from [t]: at most two
    new values per line, all non-negative, none below the one before; and
    when the loop returns, two new values for every line, the last of
    which is what it returns. *)
Lemma steps_spec (lines : list string) :
  forall t, nonneg t ->
    (List.length (steps lines t) <= 2 * List.length lines)%nat /\
    Forall nonneg (steps lines t) /\
    nondecreasing (t :: steps lines t) /\
    (forall t', loop lines t = Ok t' ->
       List.length (steps lines t) = (2 * List.length lines)%nat /\
       last (steps lines t) t = t').
Proof.
  induction lines as [|line rest IH]; intros t [Ht1 Ht2].
  - cbn [steps loop]. split; [simpl; lia|]. split; [constructor|].
    split; [exact I|]. intros t' [= <-]. split; reflexivity.
  - pose proof (insertions_of_nonneg line) as Hi.
    pose proof (deletions_of_nonneg line) as Hd.
    cbn [steps loop]. rewrite loop_body_eq. unfold line_ok.
    rewrite insertions_block_eq, deletions_block_eq.
    destruct (count_ok (search re_insertions line)).
    2:{ split; [simpl; lia|]. split; [constructor|].
        split; [exact I|]. discriminate. }
    destruct (count_ok (search re_deletions line)).
    2:{ split; [simpl; lia|].
        split; [repeat constructor; simpl; lia|].
        split; [cbn [nondecreasing]; repeat split; simpl; lia|].
        discriminate. }
    cbn [andb bind].
    set (after := mkTotals (total_insertions t + insertions_of line)
                           (total_deletions t + deletions_of line)).
    assert (nonneg after) as Ha by (split; simpl; lia).
    destruct (IH after Ha) as (Hlen & Hnn & Hnd & Hret).
    split; [simpl List.length in *; lia|].
    split; [constructor; [split; simpl; lia|]; constructor; assumption|].
    split; [cbn [nondecreasing]; repeat split; simpl; try lia; exact Hnd|].
    intros t' Hl. destruct (Hret t' Hl) as [Hlen' Hlast].
    split; [simpl List.length in *; lia|].
    now rewrite !last_cons.
Qed.

End ScriptFacts.
Export ScriptFacts.


(** ** The summary *)

Module PrintFacts.

Lemma str_ok (n : Z) (s : string) : str n = Ok s -> s = decimal_text n.
Proof. unfold str. destruct (Nat.leb _ _); [now intros [= <-] | discriminate]. Qed.

(** A run that ends with status 0 is a run in which [subprocess.run]
    returned, the loop went through and the three lines were written. *)
Lemma main_success (o : run_outcome) :
  exit_status (main o) = 0 ->
  exists cp t,
    o = Returned cp /\ aggregate (split_nl (stdout cp)) = Ok t /\
    main o = mkEnd (report t) 0 None.
Proof.
  destruct o as [e|cp]; [discriminate|]. unfold main.
  destruct (aggregate _) as [t|e] eqn:E; [|discriminate].
  intros H. exists cp, t. split; [reflexivity|]. split; [exact E|].
  revert H. unfold prints, report, net_change.
  destruct (str (total_insertions t)) as [s1|] eqn:E1; [|discriminate].
  destruct (str (total_deletions t)) as [s2|] eqn:E2; [|discriminate].
  destruct (str (total_insertions t - total_deletions t)) as [s3|] eqn:E3;
    [|discriminate].
  apply str_ok in E1, E2, E3. subst. reflexivity.
Qed.

End PrintFacts.
Export PrintFacts.


(** * The claims of the specification *)

(** C1, as stated, is false: outside a repository git starts and exits with
    status 128, [subprocess.run] returns, and the script prints its summary
    of zeros and ends with status 0. *)
Lemma C1_not_a_repository_prints_summary :
  main (run_failing NotARepository)
  = mkEnd ["Total insertions: 0"; "Total deletions: 0"; "Net change: 0"]
          0 None
  /\ ~ every_failure_is_fatal.
Proof.
  split; [reflexivity|].
  intros H. destruct (H NotARepository) as [Hs _]. now apply Hs.
Qed.

(** C1, amended: when git cannot be started ([subprocess.run] raises: the
    tool is missing or not executable) the exception is not caught, the
    process ends with a non-zero status and prints no summary; outside a
    repository git starts and its exit status, which the script does not
    look at, is no failure: the script prints the summary of zeros and ends
    with status 0. *)
Theorem C1_fatal_only_when_run_raises :
  (forall e, fatal (main (Raised e)) /\ uncaught (main (Raised e)) = Some e) /\
  fatal (main (run_failing ToolMissing)) /\
  fatal (main (run_failing ToolNotExecutable)) /\
  main (run_failing NotARepository)
  = mkEnd ["Total insertions: 0"; "Total deletions: 0"; "Net change: 0"]
          0 None.
Proof.
  repeat split; try (simpl; discriminate).
Qed.

(** C2 (Scenario A): for the report of the two lines [abc123 msg] and
    [ 1 file changed, 5 insertions(+), 2 deletions(-)] the totals are 5 and
    2, the net change is 3, and the script writes exactly the three lines
    of the summary. *)
Theorem C2_scenario_A :
  let report_A :=
    ["abc123 msg"; " 1 file changed, 5 insertions(+), 2 deletions(-)"] in
  split_nl (join_nl report_A) = report_A /\
  aggregate report_A = Ok (mkTotals 5 2) /\
  net_change (mkTotals 5 2) = 3 /\
  main (git_wrote 0 (join_nl report_A))
  = mkEnd ["Total insertions: 5"; "Total deletions: 2"; "Net change: 3"]
          0 None.
Proof. vm_compute. repeat split. Qed.

(** C3: on success, that is when the run ends with status 0, the script
    has written exactly three lines, in the order total insertions, total
    deletions, net change, each with its label; the net change is the
    difference of the two totals, and it can be negative. *)
Theorem C3_three_labeled_lines :
  (forall o,
      exit_status (main o) = 0 ->
      exists cp ti td,
        o = Returned cp /\
        aggregate (split_nl (stdout cp)) = Ok (mkTotals ti td) /\
        main o
        = mkEnd [ "Total insertions: " ++ decimal_text ti;
                  "Total deletions: " ++ decimal_text td;
                  "Net change: " ++ decimal_text (ti - td) ]%string 0 None) /\
  (exists cp, main (Returned cp)
              = mkEnd ["Total insertions: 0"; "Total deletions: 10";
                       "Net change: -10"] 0 None).
Proof.
  split.
  - intros o H. destruct (main_success o H) as (cp & [ti td] & Ho & Ha & Hm).
    now exists cp, ti, td.
  - exists (mkCompleted 0
              (join_nl ["abc123 msg"; " 3 files changed, 10 deletions(-)"]) "").
    reflexivity.
Qed.

Lemma C3_three_labeled_lines_witness :
  let o := git_wrote 0
             (join_nl ["abc123 msg"; " 3 files changed, 10 deletions(-)"]) in
  exit_status (main o) = 0 /\
  exists cp ti td,
    o = Returned cp /\
    aggregate (split_nl (stdout cp)) = Ok (mkTotals ti td) /\
    main o
    = mkEnd [ "Total insertions: " ++ decimal_text ti;
              "Total deletions: " ++ decimal_text td;
              "Net change: " ++ decimal_text (ti - td) ]%string 0 None.
Proof.
  intros o.
  exact (conj eq_refl (proj1 C3_three_labeled_lines o eq_refl)).
Defined.

(** The totals of the lines aggregated one by one. *)
Lemma per_line_totals (lines : list string) (per_line : list totals) :
  Forall2 (fun line t => aggregate [line] = Ok t) lines per_line ->
  report_ok lines = true /\ per_line = map line_totals lines.
Proof.
  induction 1 as [|line t lines per_line H _ [IH1 IH2]]; [now split|].
  rewrite aggregate_single in H.
  cbn [report_ok forallb map]. fold (report_ok lines).
  destruct (line_ok line); [|discriminate].
  injection H as <-. now rewrite IH1, IH2.
Qed.

Lemma per_line_totals_exist (lines : list string) :
  report_ok lines = true ->
  Forall2 (fun line t => aggregate [line] = Ok t)
          lines (map line_totals lines).
Proof.
  induction lines as [|line rest IH]; [constructor|].
  cbn [report_ok forallb]. fold (report_ok rest).
  intros H. apply andb_true_iff in H as [Hl Hr].
  constructor; [|now apply IH]. now rewrite aggregate_single, Hl.
Qed.

(** C4 (P1, additivity): when every line of a report aggregates on its
    own, the report aggregates to the component-wise sum of the totals of
    its lines, and a report that aggregates is made of lines that do; the
    totals of two reports put together, in either order, are the sum of
    their totals. *)
Theorem C4_additivity :
  (forall lines per_line,
      Forall2 (fun line t => aggregate [line] = Ok t) lines per_line ->
      aggregate lines = Ok (sum_totals per_line)) /\
  (forall lines t,
      aggregate lines = Ok t ->
      exists per_line,
        Forall2 (fun line t => aggregate [line] = Ok t) lines per_line /\
        t = sum_totals per_line) /\
  (forall xs ys tx ty,
      aggregate xs = Ok tx -> aggregate ys = Ok ty ->
      aggregate (xs ++ ys) = Ok (add_totals tx ty) /\
      aggregate (ys ++ xs) = Ok (add_totals tx ty)).
Proof.
  split; [|split].
  - intros lines per_line H.
    destruct (per_line_totals lines per_line H) as [Hok ->].
    now rewrite aggregate_eq, Hok.
  - intros lines t H. rewrite aggregate_eq in H.
    destruct (report_ok lines) eqn:Hok; [|discriminate].
    injection H as <-. exists (map line_totals lines).
    split; [now apply per_line_totals_exist | reflexivity].
  - intros xs ys tx ty Hx Hy. rewrite aggregate_eq in Hx, Hy.
    destruct (report_ok xs) eqn:Hox; [|discriminate].
    destruct (report_ok ys) eqn:Hoy; [|discriminate].
    injection Hx as <-. injection Hy as <-.
    rewrite !aggregate_eq, !report_ok_app, Hox, Hoy, !map_app, !sum_totals_app.
    split; [reflexivity|]. cbn [andb]. now rewrite add_totals_comm.
Qed.

Lemma C4_additivity_witness :
  let l1 := "abc123 msg" in
  let l2 := " 1 file changed, 5 insertions(+), 2 deletions(-)" in
  let l3 := " 3 files changed, 10 deletions(-)" in
  Forall2 (fun line t => aggregate [line] = Ok t)
          [l1; l2; l3] [mkTotals 0 0; mkTotals 5 2; mkTotals 0 10] /\
  aggregate [l1; l2; l3] = Ok (mkTotals 5 12) /\
  (exists per_line,
      Forall2 (fun line t => aggregate [line] = Ok t) [l1; l2; l3] per_line /\
      mkTotals 5 12 = sum_totals per_line) /\
  aggregate ([l1; l2] ++ [l3]) = Ok (mkTotals 5 12) /\
  aggregate ([l3] ++ [l1; l2]) = Ok (mkTotals 5 12).
Proof.
  intros l1 l2 l3.
  assert (Forall2 (fun line t => aggregate [line] = Ok t)
            [l1; l2; l3] [mkTotals 0 0; mkTotals 5 2; mkTotals 0 10]) as H
    by (repeat constructor).
  destruct C4_additivity as (Ha & Hb & Hc).
  refine (conj H (conj (Ha _ _ H) (conj (Hb [l1; l2; l3] _ eq_refl) _))).
  exact (Hc [l1; l2] [l3] (mkTotals 5 2) (mkTotals 0 10) eq_refl eq_refl).
Defined.

(** C5 (P2, the invariant of the counters): while any report is scanned,
    up to its end or to the conversion that raises, the counters start at
    zero, every value they take - at most two new values per line, one
    after each block of the loop body - is non-negative, and no value is
    below the one before; when the loop goes through, these are two new
    values for every line and the last one is the result. *)
Theorem C5_counters_nonneg_monotone :
  forall lines,
    hd_error (trace lines (mkTotals 0 0)) = Some (mkTotals 0 0) /\
    (List.length (trace lines (mkTotals 0 0))
     <= 2 * List.length lines + 1)%nat /\
    Forall nonneg (trace lines (mkTotals 0 0)) /\
    nondecreasing (trace lines (mkTotals 0 0)) /\
    (forall t,
        aggregate lines = Ok t ->
        List.length (trace lines (mkTotals 0 0))
        = (2 * List.length lines + 1)%nat /\
        last (trace lines (mkTotals 0 0)) (mkTotals 0 0) = t).
Proof.
  intros lines.
  assert (nonneg (mkTotals 0 0)) as H0 by (split; simpl; lia).
  destruct (steps_spec lines (mkTotals 0 0) H0) as (Hlen & Hnn & Hnd & Hret).
  unfold trace. split; [reflexivity|].
  split; [simpl List.length; lia|].
  split; [now constructor|].
  split; [exact Hnd|].
  intros t Ht. destruct (Hret t Ht) as [Hl Hlast].
  split; [simpl List.length; lia|]. now rewrite last_cons.
Qed.

Lemma C5_counters_nonneg_monotone_witness :
  let lines :=
    ["abc123 msg"; " 1 file changed, 5 insertions(+), 2 deletions(-)"] in
  aggregate lines = Ok (mkTotals 5 2) /\
  trace lines (mkTotals 0 0)
  = [mkTotals 0 0; mkTotals 0 0; mkTotals 0 0; mkTotals 5 0; mkTotals 5 2] /\
  List.length (trace lines (mkTotals 0 0)) = (2 * List.length lines + 1)%nat /\
  last (trace lines (mkTotals 0 0)) (mkTotals 0 0) = mkTotals 5 2.
Proof.
  intros lines.
  refine (conj eq_refl (conj eq_refl _)).
  exact (proj2 (proj2 (proj2 (proj2 (C5_counters_nonneg_monotone lines))))
               (mkTotals 5 2) eq_refl).
Defined.

(** C6 (P4, parse mismatch): a line that contains the word [insertion]
    (resp. [deletion]) but no text of the shape [<N> insertion(s)(+)]
    (resp. [<N> deletion(s)(-)]) leaves the corresponding total as it was,
    and the block returns normally. *)
Theorem C6_mismatch_is_skipped :
  forall (total : Z) (line : string),
    (contains "insertion" line = true ->
     ~ has_stat "insertion" "+" line ->
     insertions_block total line = Ok total) /\
    (contains "deletion" line = true ->
     ~ has_stat "deletion" "-" line ->
     deletions_block total line = Ok total).
Proof.
  intros total line. split; intros _ H.
  - rewrite insertions_block_eq. unfold insertions_of.
    rewrite re_insertions_stat.
    rewrite (search_no_stat "i" "nsertion" "+" eq_refl line H).
    cbn [count_ok count_of]. now rewrite Z.add_0_r.
  - rewrite deletions_block_eq. unfold deletions_of.
    rewrite re_deletions_stat.
    rewrite (search_no_stat "d" "eletion" "-" eq_refl line H).
    cbn [count_ok count_of]. now rewrite Z.add_0_r.
Qed.

Lemma C6_mismatch_is_skipped_witness :
  let line := " 1 file changed, 5 insertions, 2 deletions(+)" in
  contains "insertion" line = true /\
  ~ has_stat "insertion" "+" line /\
  contains "deletion" line = true /\
  ~ has_stat "deletion" "-" line /\
  insertions_block 7 line = Ok 7 /\
  deletions_block 9 line = Ok 9.
Proof.
  intros line.
  assert (~ has_stat "insertion" "+" line) as Hi.
  { intros H. apply (search_stat_iff "i" "nsertion" "+" eq_refl) in H.
    destruct H as [m H]. vm_compute in H. discriminate. }
  assert (~ has_stat "deletion" "-" line) as Hd.
  { intros H. apply (search_stat_iff "d" "eletion" "-" eq_refl) in H.
    destruct H as [m H]. vm_compute in H. discriminate. }
  refine (conj eq_refl (conj Hi (conj eq_refl (conj Hd (conj _ _))))).
  - exact (proj1 (C6_mismatch_is_skipped 7 line) eq_refl Hi).
  - exact (proj2 (C6_mismatch_is_skipped 9 line) eq_refl Hd).
Defined.

(** C7 (P3, independence of kind): each block works on its own counter
    with its own pattern: it adds the number of its match, or raises when
    [int] refuses that number, whatever the other pattern finds; an
    iteration that goes through adds to the insertions what the insertions
    match is worth and to the deletions what the deletions match is worth;
    a shortstat line with both phrases adds to both totals, and there are
    lines that add to exactly one of them and lines that add to none. *)
Theorem C7_kinds_independent :
  (forall total line,
      insertions_block total line
      = (if count_ok (search re_insertions line)
         then Ok (total + insertions_of line) else Raise ValueError) /\
      deletions_block total line
      = (if count_ok (search re_deletions line)
         then Ok (total + deletions_of line) else Raise ValueError)) /\
  (forall t line t',
      loop_body t line = Ok t' ->
      t' = mkTotals (total_insertions t + insertions_of line)
                    (total_deletions t + deletions_of line)) /\
  aggregate [" 1 file changed, 5 insertions(+), 2 deletions(-)"]
  = Ok (mkTotals 5 2) /\
  aggregate [" 1 file changed, 1 insertion(+)"] = Ok (mkTotals 1 0) /\
  aggregate [" 3 files changed, 10 deletions(-)"] = Ok (mkTotals 0 10) /\
  aggregate ["abc123 msg"] = Ok (mkTotals 0 0).
Proof.
  split; [|split].
  - intros total line. split;
      [apply insertions_block_eq | apply deletions_block_eq].
  - intros t line t' H. rewrite loop_body_eq in H.
    destruct (line_ok line); [now injection H as <- | discriminate].
  - repeat split.
Qed.

Lemma C7_kinds_independent_witness :
  let line := " 1 file changed, 5 insertions(+), 2 deletions(-)" in
  loop_body (mkTotals 10 20) line = Ok (mkTotals 15 22) /\
  mkTotals 15 22 = mkTotals (10 + insertions_of line) (20 + deletions_of line).
Proof.
  intros line.
  exact (conj eq_refl
           (proj1 (proj2 C7_kinds_independent)
                  (mkTotals 10 20) line (mkTotals 15 22) eq_refl)).
Defined.


(** C9: the substring test before the pattern changes nothing: on every
    line [extractCount] is what the pattern alone gives (the number of the
    match, nothing, or the exception of [int]), each block of the loop adds
    that number, and the script without the two tests ends as the script
    does on every run. *)
Theorem C9_precheck_redundant :
  (forall line k, extractCount line k = pattern_value k line) /\
  (forall total line,
      insertions_block total line
      = (n <- extractCount line INSERTIONS ;; Ok (total + or_zero n)) /\
      deletions_block total line
      = (n <- extractCount line DELETIONS ;; Ok (total + or_zero n))) /\
  (forall total line,
      insertions_block total line = insertions_block_nocheck total line /\
      deletions_block total line = deletions_block_nocheck total line) /\
  (forall o, main o = main_nocheck o).
Proof.
  assert (forall line k, extractCount line k = pattern_value k line) as Hx.
  { intros line k. unfold extractCount, pattern_value.
    destruct (search (pattern k) line) as [m|] eqn:E;
      [|now destruct (precheck k line)].
    destruct k; simpl in E |- *.
    - rewrite (search_stat_contains "i" "nsertion" "+" line m E).
      now rewrite orb_true_r.
    - rewrite (search_stat_contains "d" "eletion" "-" line m E).
      now rewrite orb_true_r. }
  assert (forall total line k,
             add_match total (search (pattern k) line)
             = (n <- pattern_value k line ;; Ok (total + or_zero n))) as Hv.
  { intros total line k. unfold pattern_value, add_match, match_value.
    destruct (search (pattern k) line) as [m|].
    - destruct (group1 m) as [ds|]; [|reflexivity].
      now destruct (int ds).
    - simpl. now rewrite Z.add_0_r. }
  split; [exact Hx|]. split; [|split].
  - intros total line. rewrite !Hx, <- !Hv. split.
    + apply insertions_block_nocheck_eq.
    + apply deletions_block_nocheck_eq.
  - intros total line. split.
    + apply insertions_block_nocheck_eq.
    + apply deletions_block_nocheck_eq.
  - intros [e|cp]; [reflexivity|]. unfold main, main_nocheck, aggregate.
    now rewrite loop_nocheck_eq.
Qed.

(** C10: a line adds at most one count of each kind: the block does
    [total += int(<N>)] for the number [<N>] of the leftmost text of the
    shape [<N> insertion(s)(+)] (resp. [<N> deletion(s)(-)]), whatever
    follows it in the line, further statistics included. *)
Theorem C10_leftmost_match_only :
  forall (total : Z) (pre ds ws sfx post : string),
    digits ds = true -> blanks ws = true -> plural sfx = true ->
    ((forall n, (n < String.length pre)%nat ->
        match_here re_insertions
          (drop n (pre ++ stat_text "insertion" "+" ds ws sfx post)) = None) ->
     insertions_block total (pre ++ stat_text "insertion" "+" ds ws sfx post)
     = (n <- int ds ;; Ok (total + n))) /\
    ((forall n, (n < String.length pre)%nat ->
        match_here re_deletions
          (drop n (pre ++ stat_text "deletion" "-" ds ws sfx post)) = None) ->
     deletions_block total (pre ++ stat_text "deletion" "-" ds ws sfx post)
     = (n <- int ds ;; Ok (total + n))).
Proof.
  intros total pre ds ws sfx post Hd Hw Hp. split; intros Hno.
  - rewrite insertions_block_nocheck_eq. unfold insertions_block_nocheck.
    rewrite re_insertions_stat.
    now rewrite (search_first_stat "i" "nsertion" "+" eq_refl).
  - rewrite deletions_block_nocheck_eq. unfold deletions_block_nocheck.
    rewrite re_deletions_stat.
    now rewrite (search_first_stat "d" "eletion" "-" eq_refl).
Qed.

Lemma C10_leftmost_match_only_witness :
  insertions_block 0 "2 insertions(+) then 7 insertions(+)" = Ok 2 /\
  deletions_block 0 "2 deletions(-) then 7 deletions(-)" = Ok 2 /\
  insertions_block 40 "a1 b, 3  insertion(+), 9 insertions(+)" = Ok 43.
Proof.
  refine (conj _ (conj _ _)).
  - refine (proj1 (C10_leftmost_match_only 0 "" "2" " " "s"
                     " then 7 insertions(+)" eq_refl eq_refl eq_refl) _).
    simpl. intros n Hn. lia.
  - refine (proj2 (C10_leftmost_match_only 0 "" "2" " " "s"
                     " then 7 deletions(-)" eq_refl eq_refl eq_refl) _).
    simpl. intros n Hn. lia.
  - refine (proj1 (C10_leftmost_match_only 40 "a1 b, " "3" "  " ""
                     ", 9 insertions(+)" eq_refl eq_refl eq_refl) _).
    intros n Hn. simpl in Hn.
    do 6 (destruct n as [|n]; [reflexivity|]). lia.
Defined.

(** * Further properties of the script *)

(** ** Splitting the output into lines (line 7) *)

Module SplitFacts.

Lemma split_nl_nonempty (s : string) : split_nl s <> [].
Proof.
  destruct s as [|c s]; simpl; [discriminate|].
  destruct (Ascii.eqb c "010"); [discriminate|].
  destruct (split_nl s); discriminate.
Qed.

Lemma split_nl_cons (c : ascii) (s : string) :
  is_newline c = false ->
  exists h t, split_nl s = h :: t /\ split_nl (String c s) = String c h :: t.
Proof.
  intros Hc. destruct (split_nl s) as [|h t] eqn:E.
  - now destruct (split_nl_nonempty s).
  - exists h, t. split; [reflexivity|]. simpl.
    unfold is_newline in Hc. now rewrite Hc, E.
Qed.

Lemma split_nl_app (a b : string) :
  split_nl (a ++ String "010" b) = (split_nl a ++ split_nl b)%list.
Proof.
  induction a as [|c a IH]; [reflexivity|].
  destruct (is_newline c) eqn:Hc.
  - simpl. unfold is_newline in Hc. rewrite Hc. simpl. now rewrite IH.
  - destruct (split_nl_cons c a Hc) as (h & t & Ha & Hca).
    rewrite Hca. simpl append. simpl split_nl.
    unfold is_newline in Hc. rewrite Hc, IH, Ha. reflexivity.
Qed.

Lemma split_nl_line (s : string) :
  none_in is_newline s = true -> split_nl s = [s].
Proof.
  induction s as [|c s IH]; [reflexivity|].
  unfold none_in. simpl. intros H. apply andb_true_iff in H as [Hc Hs].
  apply negb_true_iff in Hc. unfold is_newline in Hc.
  rewrite Hc. unfold none_in in IH. now rewrite (IH Hs).
Qed.

Lemma split_nl_lines (s : string) :
  Forall (fun line => none_in is_newline line = true) (split_nl s).
Proof.
  induction s as [|c s IH]; [now repeat constructor|].
  destruct (is_newline c) eqn:Hc.
  - simpl. unfold is_newline in Hc. rewrite Hc. now constructor.
  - destruct (split_nl_cons c s Hc) as (h & t & Hs & Hcs).
    rewrite Hcs. rewrite Hs in IH. inversion IH as [|? ? Hh Ht]; subst.
    constructor; [|exact Ht]. unfold none_in. simpl.
    rewrite Hc. exact Hh.
Qed.

Lemma split_nl_length (s : string) :
  List.length (split_nl s) = S (count_newlines s).
Proof.
  induction s as [|c s IH]; [reflexivity|].
  destruct (is_newline c) eqn:Hc.
  - simpl. unfold is_newline in Hc |- *. rewrite Hc. simpl. now rewrite IH.
  - destruct (split_nl_cons c s Hc) as (h & t & Hs & Hcs).
    rewrite Hcs. simpl count_newlines. rewrite Hc, <- IH, Hs. reflexivity.
Qed.

Lemma join_nl_cons (x y : string) (ys : list string) :
  join_nl (x :: y :: ys) = (x ++ String "010" (join_nl (y :: ys)))%string.
Proof. reflexivity. Qed.

Lemma join_split (s : string) : join_nl (split_nl s) = s.
Proof.
  induction s as [|c s IH]; [reflexivity|].
  destruct (is_newline c) eqn:Hc.
  - simpl split_nl. pose proof Hc as Hc'. unfold is_newline in Hc'.
    rewrite Hc'. apply Ascii.eqb_eq in Hc' as ->.
    destruct (split_nl s) as [|h t] eqn:E;
      [now destruct (split_nl_nonempty s)|].
    rewrite join_nl_cons, IH. reflexivity.
  - destruct (split_nl_cons c s Hc) as (h & t & Hs & Hcs).
    rewrite Hcs. rewrite Hs in IH. rewrite <- IH.
    destruct t as [|y t]; reflexivity.
Qed.

Lemma split_join (lines : list string) :
  lines <> [] ->
  Forall (fun line => none_in is_newline line = true) lines ->
  split_nl (join_nl lines) = lines.
Proof.
  induction lines as [|x [|y ys] IH]; intros Hne Hall.
  - now destruct Hne.
  - inversion Hall; subst. now apply split_nl_line.
  - inversion Hall as [|? ? Hx Hrest]; subst.
    rewrite join_nl_cons, split_nl_app, (split_nl_line x Hx).
    rewrite IH; [reflexivity | discriminate | exact Hrest].
Qed.

End SplitFacts.
Export SplitFacts.

(** ** Numbers: the decimal text and its value (lines 17 and 25-27) *)

Module NumberFacts.

Lemma uint_digits (d : Decimal.uint) :
  all is_digit (NilEmpty.string_of_uint d) = true.
Proof. induction d; simpl; trivial. Qed.

Lemma uint_no_space (d : Decimal.uint) :
  none_in is_space (NilEmpty.string_of_uint d) = true.
Proof. unfold none_in. induction d; simpl; trivial. Qed.

Lemma int_acc_uint (d : Decimal.uint) :
  forall acc : positive,
    int_acc (Z.pos acc) (NilEmpty.string_of_uint d)
    = Z.pos (Pos.of_uint_acc d acc).
Proof.
  induction d; intros acc;
    cbn [NilEmpty.string_of_uint int_acc Pos.of_uint_acc];
    [reflexivity | rewrite <- IHd; f_equal; unfold digit_value;
                   cbn [nat_of_ascii]; vm_compute (Z.of_nat _); lia ..].
Qed.

Lemma int_acc_uint_zero (d : Decimal.uint) :
  int_acc 0 (NilEmpty.string_of_uint d) = Z.of_N (Pos.of_uint d).
Proof.
  induction d; cbn [NilEmpty.string_of_uint int_acc Pos.of_uint];
    [reflexivity | exact IHd | apply (int_acc_uint d) ..].
Qed.

Lemma decimal_value_uint (d : Decimal.uint) :
  decimal_value (NilZero.string_of_uint d) = Z.of_N (Pos.of_uint d).
Proof.
  destruct d; try reflexivity; apply (int_acc_uint_zero (_ d)).
Qed.

(** The decimal text of a number that is not negative stands for it. *)
Lemma decimal_value_text (n : Z) :
  0 <= n -> decimal_value (decimal_text n) = n.
Proof.
  intros Hn. unfold decimal_text.
  destruct n as [|p|p]; [reflexivity| |lia].
  cbn [Z.to_int NilZero.string_of_int]. rewrite decimal_value_uint.
  now rewrite Unsigned.of_to.
Qed.

Lemma decimal_text_digits (n : Z) : 0 <= n -> digits (decimal_text n) = true.
Proof.
  intros Hn. unfold decimal_text, digits.
  destruct n as [|p|p]; [reflexivity| |lia].
  cbn [Z.to_int NilZero.string_of_int].
  pose proof (Unsigned.to_uint_nonnil p) as Hnil.
  destruct (Pos.to_uint p) as [|d|d|d|d|d|d|d|d|d|d] eqn:E;
    [now destruct Hnil | cbn [NilZero.string_of_uint]; rewrite uint_digits;
                         reflexivity ..].
Qed.

Lemma decimal_text_no_space (n : Z) :
  none_in is_space (decimal_text n) = true.
Proof.
  assert (forall d, none_in is_space (NilZero.string_of_uint d) = true) as H.
  { intros d. destruct d; try reflexivity; apply (uint_no_space (_ d)). }
  unfold decimal_text. destruct n as [|p|p]; [reflexivity | apply H |].
  cbn [Z.to_int NilZero.string_of_int]. unfold none_in. simpl.
  apply H.
Qed.

End NumberFacts.
Export NumberFacts.

(** ** Where the pattern matches and where it cannot (lines 15 and 21) *)

Module MatchFacts.

Lemma drop_append (a b : string) : drop (String.length a) (a ++ b) = b.
Proof. induction a as [|x a IH]; simpl; [now destruct b | exact IH]. Qed.

Lemma ends_in_split (p : ascii -> bool) (s : string) :
  ends_in p s = true ->
  exists s' d, s = (s' ++ String d "")%string /\ p d = true.
Proof.
  induction s as [|c s IH]; [discriminate|].
  destruct s as [|c' s].
  - simpl. intros H. now exists "", c.
  - intros H. destruct (IH H) as (s' & d & Hs & Hd).
    exists (String c s'), d. simpl. now rewrite <- Hs.
Qed.

Lemma blanks_head_space (ws rest : string) :
  blanks ws = true -> head_in is_space (ws ++ rest) = true.
Proof.
  destruct ws as [|c ws]; [discriminate|]. unfold blanks. simpl.
  intros H. now apply andb_true_iff in H as [H _].
Qed.

Lemma none_in_head (p : ascii -> bool) (s : string) :
  none_in p s = true -> head_in p s = false.
Proof.
  destruct s as [|c s]; [reflexivity|]. unfold none_in. simpl.
  intros H. apply andb_true_iff in H as [H _]. now apply negb_true_iff in H.
Qed.

(** [p+] followed by something that needs a character of [q] fails on a
    text without any character of [q]. *)
Lemma plus_loop_none_in {A : Type} (p q : ascii -> bool) (s : string)
      (k : string -> option A) :
  none_in q s = true ->
  (forall s', none_in q s' = true -> k s' = None) ->
  plus_loop p s k = None.
Proof.
  intros Hs Hk. induction s as [|c s IH]; [reflexivity|].
  unfold none_in in Hs. simpl in Hs. apply andb_true_iff in Hs as [_ Hs].
  simpl. destruct (p c); [|reflexivity].
  rewrite (IH Hs). now apply Hk.
Qed.

Section StatWhere.
Variables (w0 : ascii) (w : string) (sign : ascii).
Hypothesis w0_not_space : is_space w0 = false.

Let word : string := String w0 w.
Let re : regex := stat_re word sign.

(** The number of a match is a whole number of the line: no digit stands
    before it and white space follows it. *)
Lemma search_stat_whole (line : string) (m : Match) :
  search re line = Some m ->
  exists pre ds rest,
    line = (pre ++ ds ++ rest)%string /\ m = mkMatch (Some ds) /\
    digits ds = true /\ ends_in is_digit pre = false /\
    head_in is_space rest = true.
Proof.
  unfold re, word in *. intros H.
  apply search_sound in H as (pre & rest & -> & H & Hno).
  apply (match_here_stat_sound w0 w sign) in H
    as (ds & ws & sfx & post & -> & Hd & Hw & Hp & ->).
  exists pre, ds, (ws ++ String w0 w ++ sfx
                      ++ String "(" (String sign (String ")" post)))%string.
  repeat split; trivial; [|now apply blanks_head_space].
  destruct (ends_in is_digit pre) eqn:E; [|reflexivity].
  apply ends_in_split in E as (pre' & d & -> & Hdig).
  specialize (Hno (String.length pre')).
  rewrite append_assoc, drop_append in Hno. simpl append in Hno.
  change (String d (stat_text (String w0 w) sign ds ws sfx post))
    with (stat_text (String w0 w) sign (String d ds) ws sfx post) in Hno.
  rewrite (match_here_stat w0 w sign w0_not_space) in Hno; trivial.
  - rewrite length_append in Hno. simpl in Hno.
    assert (Some (mkMatch (Some (String d ds))) = None) as C
      by (apply Hno; lia).
    discriminate.
  - unfold digits in *. simpl. rewrite Hdig. simpl.
    now apply andb_true_iff in Hd as [_ Hd].
Qed.

(** Without white space nothing matches. *)
Lemma match_here_no_space (s : string) :
  none_in is_space s = true -> match_here re s = None.
Proof.
  unfold re, match_here, stat_re. intros Hs. cbn [bt].
  apply (plus_loop_none_in is_digit is_space); [exact Hs|].
  intros s' Hs'. apply plus_loop_head. now apply none_in_head.
Qed.

(** A label without digits followed by text without white space holds no
    match. *)
Lemma search_label_number (label num : string) :
  none_in is_digit label = true -> none_in is_space num = true ->
  search re (label ++ num) = None.
Proof.
  intros Hl Hn. induction label as [|c label IH].
  - simpl append. clear Hl. induction num as [|c num IH].
    + reflexivity.
    + rewrite search_eq, (match_here_no_space _ Hn). apply IH.
      unfold none_in in Hn. simpl in Hn.
      now apply andb_true_iff in Hn as [_ Hn].
  - unfold none_in in Hl. simpl in Hl. apply andb_true_iff in Hl as [Hc Hl].
    apply negb_true_iff in Hc. rewrite search_eq. simpl append.
    replace (match_here re (String c (label ++ num))) with (@None Match).
    + now apply IH.
    + symmetry. unfold re, match_here, stat_re. cbn [bt].
      apply plus_loop_head. exact Hc.
Qed.
End StatWhere.

(** ['insertions' in line] implies ['insertion' in line]: a longer needle
    is found only where the shorter one is. *)
Lemma contains_longer (needle more hay : string) :
  contains (needle ++ more) hay = true -> contains needle hay = true.
Proof.
  intros H. apply contains_split in H as (pre & post & ->).
  rewrite append_assoc. apply contains_append.
Qed.

End MatchFacts.
Export MatchFacts.

(** ** Properties read off the script *)

(** X1: [re.search] finds the insertions pattern in a line exactly when
    the line contains a number, white space, the word [insertion], an
    optional [s] and [(+)]; likewise for deletions with [(-)]. *)
Theorem X1_pattern_found_iff_shape :
  forall line,
    ((exists m, search re_insertions line = Some m)
     <-> has_stat "insertion" "+" line) /\
    ((exists m, search re_deletions line = Some m)
     <-> has_stat "deletion" "-" line).
Proof.
  intros line. split.
  - apply (search_stat_iff "i" "nsertion" "+" eq_refl).
  - apply (search_stat_iff "d" "eletion" "-" eq_refl).
Qed.

(** X2: the number a match hands to [int] is a whole number of the line:
    group 1 is present, it is a non-empty run of digits, no digit stands
    just before it and white space follows it. *)
Theorem X2_count_is_whole_number :
  forall line m,
    (search re_insertions line = Some m ->
     exists pre ds rest,
       line = (pre ++ ds ++ rest)%string /\ group1 m = Some ds /\
       digits ds = true /\ ends_in is_digit pre = false /\
       head_in is_space rest = true) /\
    (search re_deletions line = Some m ->
     exists pre ds rest,
       line = (pre ++ ds ++ rest)%string /\ group1 m = Some ds /\
       digits ds = true /\ ends_in is_digit pre = false /\
       head_in is_space rest = true).
Proof.
  intros line m. split; intros H.
  - apply (search_stat_whole "i" "nsertion" "+" eq_refl) in H
      as (pre & ds & rest & -> & -> & Hd & He & Hh).
    now exists pre, ds, rest.
  - apply (search_stat_whole "d" "eletion" "-" eq_refl) in H
      as (pre & ds & rest & -> & -> & Hd & He & Hh).
    now exists pre, ds, rest.
Qed.

Lemma X2_count_is_whole_number_witness :
  let line := " 2 files changed, 120 insertions(+), 34 deletions(-)" in
  search re_insertions line = Some (mkMatch (Some "120")) /\
  search re_deletions line = Some (mkMatch (Some "34")) /\
  (exists pre ds rest,
      line = (pre ++ ds ++ rest)%string /\ Some "120" = Some ds /\
      digits ds = true /\ ends_in is_digit pre = false /\
      head_in is_space rest = true) /\
  (exists pre ds rest,
      line = (pre ++ ds ++ rest)%string /\ Some "34" = Some ds /\
      digits ds = true /\ ends_in is_digit pre = false /\
      head_in is_space rest = true).
Proof.
  intros line.
  refine (conj eq_refl (conj eq_refl (conj _ _))).
  - exact (proj1 (X2_count_is_whole_number line (mkMatch (Some "120")))
                 eq_refl).
  - exact (proj2 (X2_count_is_whole_number line (mkMatch (Some "34")))
                 eq_refl).
Defined.

(** X3: in each [if] of the loop the test on the plural is redundant: the
    condition holds exactly when the line contains the singular word. *)
Theorem X3_plural_test_redundant :
  forall line,
    (contains "insertions" line || contains "insertion" line)%bool
    = contains "insertion" line /\
    (contains "deletions" line || contains "deletion" line)%bool
    = contains "deletion" line.
Proof.
  intros line. split.
  - destruct (contains "insertions" line) eqn:E; [|reflexivity].
    symmetry. apply (contains_longer "insertion" "s"). exact E.
  - destruct (contains "deletions" line) eqn:E; [|reflexivity].
    symmetry. apply (contains_longer "deletion" "s"). exact E.
Qed.

(** X4: [split('\n')] never gives an empty list: it gives one line more
    than the text has line feeds, no line holds a line feed, and joining
    the lines with line feeds gives the text back. *)
Theorem X4_split_lines :
  forall s,
    split_nl s <> [] /\
    List.length (split_nl s) = S (count_newlines s) /\
    Forall (fun line => none_in is_newline line = true) (split_nl s) /\
    join_nl (split_nl s) = s.
Proof.
  intros s. repeat split.
  - apply split_nl_nonempty.
  - apply split_nl_length.
  - apply split_nl_lines.
  - apply join_split.
Qed.

(** X5: the other way round, a text made of one line or more without line
    feeds, joined by line feeds, splits into these lines. *)
Theorem X5_split_of_joined_lines :
  forall lines,
    lines <> [] ->
    Forall (fun line => none_in is_newline line = true) lines ->
    split_nl (join_nl lines) = lines.
Proof. exact split_join. Qed.

Lemma X5_split_of_joined_lines_witness :
  let lines := ["abc123 msg"; " 1 file changed, 1 insertion(+)"; ""] in
  lines <> [] /\
  Forall (fun line => none_in is_newline line = true) lines /\
  split_nl (join_nl lines) = lines.
Proof.
  intros lines.
  assert (lines <> []) as Hne by discriminate.
  assert (Forall (fun line => none_in is_newline line = true) lines) as Hall
    by (repeat constructor).
  exact (conj Hne (conj Hall (X5_split_of_joined_lines lines Hne Hall))).
Defined.

(** X6: two outputs put one after the other with a line feed between them
    split into the lines of the first followed by the lines of the second,
    and when each of them aggregates, their totals add up. *)
Theorem X6_outputs_concatenate :
  forall a b,
    split_nl (a ++ String "010" b) = (split_nl a ++ split_nl b)%list /\
    forall ta tb,
      aggregate (split_nl a) = Ok ta -> aggregate (split_nl b) = Ok tb ->
      aggregate (split_nl (a ++ String "010" b)) = Ok (add_totals ta tb).
Proof.
  intros a b. split; [apply split_nl_app|].
  intros ta tb Ha Hb. rewrite split_nl_app.
  rewrite aggregate_eq in Ha, Hb.
  destruct (report_ok (split_nl a)) eqn:Hoa; [|discriminate].
  destruct (report_ok (split_nl b)) eqn:Hob; [|discriminate].
  injection Ha as <-. injection Hb as <-.
  now rewrite aggregate_eq, report_ok_app, Hoa, Hob, map_app, sum_totals_app.
Qed.

Lemma X6_outputs_concatenate_witness :
  let a := join_nl ["abc123 one"; " 1 file changed, 5 insertions(+)"] in
  let b := join_nl ["def456 two"; " 2 files changed, 3 deletions(-)"; ""] in
  aggregate (split_nl a) = Ok (mkTotals 5 0) /\
  aggregate (split_nl b) = Ok (mkTotals 0 3) /\
  aggregate (split_nl (a ++ String "010" b)) = Ok (mkTotals 5 3).
Proof.
  intros a b.
  exact (conj eq_refl (conj eq_refl
           (proj2 (X6_outputs_concatenate a b)
                  (mkTotals 5 0) (mkTotals 0 3) eq_refl eq_refl))).
Defined.

(** X7: a line feed at the end of the output of git changes nothing of what
    the script prints. *)
Theorem X7_trailing_newline_ignored :
  forall rc out err,
    main (Returned (mkCompleted rc (out ++ String "010" "") err))
    = main (Returned (mkCompleted rc out err)).
Proof.
  intros rc out err. unfold main. simpl stdout.
  assert (aggregate (split_nl (out ++ String "010" ""))
          = aggregate (split_nl out)) as ->; [|reflexivity].
  rewrite !aggregate_eq, split_nl_app, report_ok_app, map_app, sum_totals_app.
  change (report_ok (split_nl "")) with true.
  change (sum_totals (map line_totals (split_nl ""))) with (mkTotals 0 0).
  now rewrite andb_true_r, add_totals_zero_r.
Qed.

(** X8: the order of the lines of the output does not matter: two runs
    whose outputs have the same lines in another order end the same way. *)
Theorem X8_line_order_irrelevant :
  forall cp1 cp2,
    Permutation (split_nl (stdout cp1)) (split_nl (stdout cp2)) ->
    main (Returned cp1) = main (Returned cp2).
Proof.
  intros cp1 cp2 H. unfold main. now rewrite (aggregate_perm _ _ H).
Qed.

Lemma X8_line_order_irrelevant_witness :
  let l1 := " 1 file changed, 5 insertions(+)" in
  let l2 := " 2 files changed, 3 deletions(-)" in
  main (git_wrote 0 (join_nl [l1; l2])) = main (git_wrote 0 (join_nl [l2; l1])).
Proof.
  intros l1 l2. apply X8_line_order_irrelevant.
  change (Permutation [l1; l2] [l2; l1]). apply perm_swap.
Defined.

(** X9: a line that is the decimal text of a number [n], not negative,
    followed by [ insertions(+)] or [ insertion(+)] (resp. [ deletions(-)]
    or [ deletion(-)]) adds exactly [n] to the total when the text has at
    most 4300 digits, and raises [ValueError] when it has more. *)
Theorem X9_printed_number_counts_itself :
  forall total n,
    0 <= n ->
    let outcome :=
      if readable (decimal_text n) then Ok (total + n)
      else Raise ValueError in
    insertions_block total (decimal_text n ++ " insertions(+)") = outcome /\
    insertions_block total (decimal_text n ++ " insertion(+)") = outcome /\
    deletions_block total (decimal_text n ++ " deletions(-)") = outcome /\
    deletions_block total (decimal_text n ++ " deletion(-)") = outcome.
Proof.
  intros total n Hn outcome.
  pose proof (decimal_value_text n Hn) as Hv.
  pose proof (decimal_text_digits n Hn) as Hd.
  pose proof (search_first_stat "i" "nsertion" "+" eq_refl ""
                (decimal_text n) " " "s" "" Hd eq_refl eq_refl) as H1.
  pose proof (search_first_stat "i" "nsertion" "+" eq_refl ""
                (decimal_text n) " " "" "" Hd eq_refl eq_refl) as H2.
  pose proof (search_first_stat "d" "eletion" "-" eq_refl ""
                (decimal_text n) " " "s" "" Hd eq_refl eq_refl) as H3.
  pose proof (search_first_stat "d" "eletion" "-" eq_refl ""
                (decimal_text n) " " "" "" Hd eq_refl eq_refl) as H4.
  cbv [stat_text] in H1, H2, H3, H4. simpl append in H1, H2, H3, H4.
  simpl String.length in H1, H2, H3, H4.
  rewrite !insertions_block_eq, !deletions_block_eq.
  unfold insertions_of, deletions_of.
  rewrite re_insertions_stat, re_deletions_stat.
  rewrite H1, H2, H3, H4 by (intros k Hk; lia).
  cbn [count_ok count_of]. rewrite Hv. repeat split.
Qed.

Lemma X9_printed_number_counts_itself_witness :
  insertions_block 10 "1234 insertions(+)" = Ok 1244 /\
  insertions_block 10 "1234 insertion(+)" = Ok 1244 /\
  deletions_block 10 "1234 deletions(-)" = Ok 1244 /\
  deletions_block 10 "1234 deletion(-)" = Ok 1244.
Proof.
  apply (X9_printed_number_counts_itself 10 1234). lia.
Defined.

(** X10: the summary the script prints holds nothing the script would
    count: its three lines, scanned as a report, leave both totals at
    zero, and added to any report they leave its totals as they are. *)
Theorem X10_summary_is_not_counted :
  forall t lines,
    aggregate (report t) = Ok (mkTotals 0 0) /\
    aggregate (lines ++ report t) = aggregate lines.
Proof.
  assert (forall label n,
             none_in is_digit label = true ->
             line_totals (label ++ decimal_text n) = mkTotals 0 0 /\
             line_ok (label ++ decimal_text n) = true) as Hline.
  { intros label n Hl.
    unfold line_totals, line_ok, insertions_of, deletions_of.
    rewrite re_insertions_stat, re_deletions_stat.
    rewrite (search_label_number "i" "nsertion" "+" label (decimal_text n) Hl
               (decimal_text_no_space n)).
    rewrite (search_label_number "d" "eletion" "-" label (decimal_text n) Hl
               (decimal_text_no_space n)).
    split; reflexivity. }
  assert (forall t, sum_totals (map line_totals (report t)) = mkTotals 0 0
                    /\ report_ok (report t) = true) as Hsum.
  { intros t. unfold report, report_ok.
    cbn [map sum_totals fold_right forallb].
    destruct (Hline "Total insertions: " (total_insertions t) eq_refl)
      as [-> ->].
    destruct (Hline "Total deletions: " (total_deletions t) eq_refl)
      as [-> ->].
    destruct (Hline "Net change: " (net_change t) eq_refl) as [-> ->].
    split; reflexivity. }
  intros t lines. destruct (Hsum t) as [Hs Hok]. split.
  - now rewrite aggregate_eq, Hok, Hs.
  - rewrite !aggregate_eq, report_ok_app, map_app, sum_totals_app, Hs, Hok.
    now rewrite andb_true_r, add_totals_zero_r.
Qed.

Lemma all_none_in (p q : ascii -> bool) (s : string) :
  (forall c, p c = true -> q c = false) ->
  all p s = true -> none_in q s = true.
Proof.
  intros Hpq. unfold none_in. induction s as [|c s IH]; [reflexivity|].
  simpl. intros H. apply andb_true_iff in H as [Hc Hs].
  now rewrite (Hpq c Hc), (IH Hs).
Qed.

Lemma digit_not_newline (c : ascii) :
  is_digit c = true -> is_newline c = false.
Proof.
  intros H. apply digit_not_space in H. unfold is_newline.
  destruct (Ascii.eqb c "010") eqn:E; [|reflexivity].
  apply Ascii.eqb_eq in E. subst c. discriminate.
Qed.

(** X11: the script matches line by line, so a statistic broken by a line
    feed is not counted, although [\s] accepts the line feed: the pattern
    finds the number in the unsplit text and finds nothing in its lines. *)
Theorem X11_no_match_across_lines :
  forall ds,
    digits ds = true ->
    (search re_insertions (ds ++ String "010" "insertions(+)")
     = Some (mkMatch (Some ds)) /\
     insertions_of (ds ++ String "010" "insertions(+)") = decimal_value ds /\
     aggregate (split_nl (ds ++ String "010" "insertions(+)"))
     = Ok (mkTotals 0 0)) /\
    (search re_deletions (ds ++ String "010" "deletions(-)")
     = Some (mkMatch (Some ds)) /\
     deletions_of (ds ++ String "010" "deletions(-)") = decimal_value ds /\
     aggregate (split_nl (ds ++ String "010" "deletions(-)"))
     = Ok (mkTotals 0 0)).
Proof.
  intros ds Hd. pose proof Hd as Hd'.
  apply andb_true_iff in Hd' as [_ Hall].
  pose proof (all_none_in _ _ ds digit_not_newline Hall) as Hnl.
  pose proof (all_none_in _ _ ds digit_not_space Hall) as Hsp.
  assert (line_totals ds = mkTotals 0 0 /\ line_ok ds = true) as [Hline Hok].
  { unfold line_totals, line_ok, insertions_of, deletions_of.
    rewrite re_insertions_stat, re_deletions_stat.
    pose proof (search_label_number "i" "nsertion" "+" "" ds eq_refl Hsp)
      as Hi.
    pose proof (search_label_number "d" "eletion" "-" "" ds eq_refl Hsp)
      as Hdel.
    simpl append in Hi, Hdel. rewrite Hi, Hdel. split; reflexivity. }
  pose proof (search_first_stat "i" "nsertion" "+" eq_refl ""
                ds (String "010" "") "s" "" Hd eq_refl eq_refl) as Hi.
  pose proof (search_first_stat "d" "eletion" "-" eq_refl ""
                ds (String "010" "") "s" "" Hd eq_refl eq_refl) as Hdel.
  cbv [stat_text] in Hi, Hdel. simpl append in Hi, Hdel.
  simpl String.length in Hi, Hdel.
  assert (forall k : nat, (k < 0)%nat -> False) as Hlt by (intros k Hk; lia).
  split; split.
  - rewrite re_insertions_stat. apply Hi. intros k Hk. now destruct (Hlt k).
  - split.
    + unfold insertions_of. rewrite re_insertions_stat, Hi; [reflexivity|].
      intros k Hk. now destruct (Hlt k).
    + rewrite aggregate_eq, split_nl_app, (split_nl_line ds Hnl).
      cbn [app report_ok forallb map sum_totals fold_right split_nl].
      rewrite Hok, Hline. reflexivity.
  - rewrite re_deletions_stat. apply Hdel. intros k Hk. now destruct (Hlt k).
  - split.
    + unfold deletions_of. rewrite re_deletions_stat, Hdel; [reflexivity|].
      intros k Hk. now destruct (Hlt k).
    + rewrite aggregate_eq, split_nl_app, (split_nl_line ds Hnl).
      cbn [app report_ok forallb map sum_totals fold_right split_nl].
      rewrite Hok, Hline. reflexivity.
Qed.

Lemma X11_no_match_across_lines_witness :
  digits "42" = true /\
  (search re_insertions (String "4" (String "2" (String "010" "insertions(+)")))
   = Some (mkMatch (Some "42")) /\
   insertions_of (String "4" (String "2" (String "010" "insertions(+)")))
   = 42 /\
   aggregate ["42"; "insertions(+)"] = Ok (mkTotals 0 0)) /\
  (search re_deletions (String "4" (String "2" (String "010" "deletions(-)")))
   = Some (mkMatch (Some "42")) /\
   deletions_of (String "4" (String "2" (String "010" "deletions(-)")))
   = 42 /\
   aggregate ["42"; "deletions(-)"] = Ok (mkTotals 0 0)).
Proof.
  exact (conj eq_refl (X11_no_match_across_lines "42" eq_refl)).
Defined.

Lemma str_raise (n : Z) (e : exn) : str n = Raise e -> e = ValueError.
Proof. unfold str. destruct (Nat.leb _ _); [discriminate | now intros [= <-]]. Qed.

(** The three [print] calls write the first lines of the summary: all
    three and status 0, or fewer, up to the number that is too long for
    [str], and status 1 with [ValueError]. *)
Lemma prints_prefix (t : totals) :
  exists k,
    printed (prints t) = firstn k (report t) /\
    (k = 3%nat /\ exit_status (prints t) = 0 /\ uncaught (prints t) = None \/
     (k < 3)%nat /\ exit_status (prints t) = 1 /\
     uncaught (prints t) = Some ValueError).
Proof.
  unfold prints, report, net_change.
  destruct (str (total_insertions t)) as [s1|e1] eqn:E1.
  2:{ apply str_raise in E1 as ->. exists 0%nat. split; [reflexivity|].
      right. repeat split. lia. }
  apply str_ok in E1 as ->.
  destruct (str (total_deletions t)) as [s2|e2] eqn:E2.
  2:{ apply str_raise in E2 as ->. exists 1%nat. split; [reflexivity|].
      right. repeat split. lia. }
  apply str_ok in E2 as ->.
  destruct (str (total_insertions t - total_deletions t)) as [s3|e3] eqn:E3.
  2:{ apply str_raise in E3 as ->. exists 2%nat. split; [reflexivity|].
      right. repeat split. lia. }
  apply str_ok in E3 as ->. exists 3%nat. split; [reflexivity|].
  left. repeat split.
Qed.

Lemma firstn_short {A : Type} (k : nat) (l : list A) :
  (k < List.length l)%nat -> List.length (firstn k l) = k.
Proof. intros H. rewrite length_firstn. lia. Qed.

(** X12: however the script ends, it ends with status 0, without an
    exception and with exactly three lines written, or with status 1, an
    uncaught exception and fewer than three lines written; and what it has
    written after the loop returned the totals [t] is the first lines of
    the summary of [t]. *)
Theorem X12_summary_all_or_cut_short :
  forall o,
    (exit_status (main o) = 0 /\ uncaught (main o) = None /\
     List.length (printed (main o)) = 3%nat \/
     exit_status (main o) = 1 /\ uncaught (main o) <> None /\
     (List.length (printed (main o)) < 3)%nat) /\
    (forall cp t,
        o = Returned cp -> aggregate (split_nl (stdout cp)) = Ok t ->
        exists k, printed (main o) = firstn k (report t)).
Proof.
  intros o. split.
  - destruct o as [e|cp]; [right; repeat split; [discriminate | simpl; lia]|].
    unfold main. destruct (aggregate _) as [t|e];
      [|right; repeat split; [discriminate | simpl; lia]].
    destruct (prints_prefix t) as (k & Hk & [(-> & Hs & Hu)|(Hlt & Hs & Hu)]).
    + left. rewrite Hk. repeat split; assumption.
    + right. rewrite Hk, Hu, firstn_short by (simpl; lia).
      repeat split; [assumption | discriminate | assumption].
  - intros cp t -> Ha. unfold main. rewrite Ha.
    destruct (prints_prefix t) as (k & Hk & _). now exists k.
Qed.

Lemma X12_summary_all_or_cut_short_witness :
  let cp := mkCompleted 0 (join_nl ["abc123 msg";
                " 1 file changed, 5 insertions(+), 2 deletions(-)"]) "" in
  aggregate (split_nl (stdout cp)) = Ok (mkTotals 5 2) /\
  exists k, printed (main (Returned cp)) = firstn k (report (mkTotals 5 2)).
Proof.
  intros cp.
  exact (conj eq_refl
           (proj2 (X12_summary_all_or_cut_short (Returned cp))
                  cp (mkTotals 5 2) eq_refl eq_refl)).
Defined.

Lemma count_ok_false (m : option Match) :
  count_ok m = false ->
  exists ds, m = Some (mkMatch (Some ds)) /\
             (max_str_digits < String.length ds)%nat.
Proof.
  destruct m as [[[ds|]]|]; try discriminate. unfold count_ok, readable.
  intros H. exists ds. split; [reflexivity|]. now apply Nat.leb_gt.
Qed.

Lemma line_ok_false (line : string) :
  line_ok line = false <-> long_number line.
Proof.
  unfold line_ok, long_number. split.
  - intros H. apply andb_false_iff in H as [H|H];
      apply count_ok_false in H as (ds & H & Hlen); exists ds; auto.
  - intros (ds & [H|H] & Hlen); rewrite H; unfold count_ok, readable;
      apply Nat.leb_gt in Hlen; rewrite Hlen;
      [reflexivity | apply andb_false_r].
Qed.

Lemma report_ok_false (lines : list string) :
  report_ok lines = false <-> Exists long_number lines.
Proof.
  unfold report_ok. induction lines as [|line rest IH]; cbn [forallb].
  - split; [discriminate | intros H; inversion H].
  - rewrite andb_false_iff, line_ok_false, IH. split.
    + intros [H|H]; [now left | now right].
    + intros H. inversion H; auto.
Qed.

(** X13: the loop can only end early by [ValueError], and it does exactly
    when some line holds, as the number its insertions pattern or its
    deletions pattern finds, more digits than [int] converts (4300);
    otherwise it returns the sums over all lines. *)
Theorem X13_loop_raises_only_on_long_numbers :
  forall lines,
    (aggregate lines = Ok (sum_totals (map line_totals lines)) \/
     aggregate lines = Raise ValueError /\ Exists long_number lines) /\
    (Exists long_number lines -> aggregate lines = Raise ValueError).
Proof.
  intros lines. rewrite aggregate_eq. split.
  - destruct (report_ok lines) eqn:H; [now left|].
    right. split; [reflexivity|]. now apply report_ok_false.
  - intros H. apply report_ok_false in H. now rewrite H.
Qed.

Lemma X13_loop_raises_only_on_long_numbers_witness :
  let lines := ["abc123 msg";
                (repeat_char "9" 4301 ++ " insertions(+)")%string] in
  Exists long_number lines /\
  aggregate lines = Raise ValueError /\
  main (git_wrote 0 (join_nl lines)) = mkEnd [] 1 (Some ValueError).
Proof.
  intros lines.
  assert (Exists long_number lines) as H.
  { apply Exists_cons_tl, Exists_cons_hd.
    exists (repeat_char "9" 4301). split.
    - left. vm_compute. reflexivity.
    - apply Nat.ltb_lt. vm_compute. reflexivity. }
  refine (conj H (conj (proj2 (X13_loop_raises_only_on_long_numbers lines) H) _)).
  vm_compute. reflexivity.
Defined.
